(** * Curator request processors: resume, admission estimate, response parsing

    A shallow embedding of
    - [request_processor/offline/base_offline_request_processor.py]
      (checkpoint log resume in [process_requests_from_file]),
    - [request_processor/online/openai_online_request_processor.py]
      ([estimate_total_tokens], [check_structured_output_support],
      [call_single_request], the set-up of the processor),
    - [file_utilities.py] ([count_lines]),
    together with the properties the specification states about them and
    further properties of the code (X1 and following).

    Layout: Python values and helpers, the data model, the two processors,
    sample data, then the properties and their runs on the sample data. *)

From Stdlib Require Import ZArith String Ascii List Bool Lia DecimalString.
From Stdlib.Strings Require Import Byte.
From stdpp Require Import base option list gmap strings.

Local Set Warnings "-register-all,-clear-no-such-hyp".
Local Set Default Proof Using "Type".
Local Open Scope string_scope.
Local Open Scope list_scope.
Local Open Scope Z_scope.

(** ** Python values and exceptions *)

(** A decoded JSON document, i.e. the Python value [json.loads] /
    [response_obj.json()] hands back.  Python's [None] is [JNull]; a [dict]
    is the list of its items (lookup takes the first binding of a key);
    numbers are integers, which is all the modelled code looks at. *)
Inductive json : Type :=
| JNull
| JBool (b : bool)
| JNum (n : Z)
| JStr (s : string)
| JArr (xs : list json)
| JObj (kvs : list (string * json)).

(** The exceptions the modelled code can raise. *)
Inductive exn : Type :=
| KeyError
| IndexError
| TypeError
| AttributeError
| ValueError
| ValidationError
| FileNotFoundError
| EOFError
| APIError (error : json)                      (* Exception(f"API error: {error}") *)
| StatusError (status : Z) (response : json)   (* Exception(f"API request failed ...") *)
| TransportError                               (* raised inside session.post / .json() *)
| BackendError.                                (* raised by a subclass hook *)

Inductive result (A : Type) : Type :=
| Ok (a : A)
| Raise (e : exn).
Arguments Ok {A} a.
Arguments Raise {A} e.

Definition bind {A B} (r : result A) (k : A -> result B) : result B :=
  match r with
  | Ok a => k a
  | Raise e => Raise e
  end.

Notation "x <- r ;; k" := (bind r (fun x => k))
  (at level 100, r at next level, right associativity).

Definition of_option {A} (e : exn) (o : option A) : result A :=
  match o with
  | Some a => Ok a
  | None => Raise e
  end.

(** ** Python string operations *)
Module Py.

(** [c.lower()] on one character (ASCII letters). *)
Definition lower_ascii (c : ascii) : ascii :=
  let n := nat_of_ascii c in
  if (Nat.leb 65 n && Nat.leb n 90)%bool then ascii_of_nat (n + 32) else c.

(** [s.lower()] *)
Fixpoint lower (s : string) : string :=
  match s with
  | EmptyString => EmptyString
  | String c s' => String (lower_ascii c) (lower s')
  end.

(** [sub in s] for two strings. *)
Fixpoint contains (sub s : string) : bool :=
  if String.prefix sub s then true
  else match s with
       | EmptyString => false
       | String _ s' => contains sub s'
       end.

(** [s.split(sep)] for a non-empty separator: [skip] counts the characters
    of a separator occurrence still to be passed over, [cur] is the piece
    being collected. *)
Fixpoint split_go (sep : string) (skip : nat) (cur s : string) : list string :=
  match s with
  | EmptyString => [cur]
  | String c s' =>
      match skip with
      | S k => split_go sep k cur s'
      | O =>
          if String.prefix sep s
          then cur :: split_go sep (Nat.pred (String.length sep)) EmptyString s'
          else split_go sep 0 (cur ++ String c EmptyString)%string s'
      end
  end.

Definition split (sep s : string) : list string := split_go sep 0 EmptyString s.

(** [x in xs] for a list of strings. *)
Definition in_list (x : string) (xs : list string) : bool :=
  existsb (String.eqb x) xs.

(** [xs[i]] for a list and a non-negative literal index. *)
Definition index {A} (xs : list A) (i : nat) : result A :=
  of_option IndexError (nth_error xs i).

(** [s.replace(old, new)] for a non-empty [old]: occurrences are taken from
    the left and do not overlap; [skip] counts the characters of a replaced
    occurrence still to be passed over. *)
Fixpoint replace_go (old new : string) (skip : nat) (s : string) : string :=
  match s with
  | EmptyString => EmptyString
  | String c s' =>
      match skip with
      | S k => replace_go old new k s'
      | O =>
          if String.prefix old s
          then (new ++ replace_go old new (Nat.pred (String.length old)) s')%string
          else String c (replace_go old new 0 s')
      end
  end.

Definition replace (old new s : string) : string := replace_go old new 0 s.

End Py.

(** ** [check_structured_output_support] *)

Record date : Type := Date { year : Z; month : Z; day : Z }.

(** [a >= b] on two [datetime.datetime] values at midnight. *)
Definition date_ge (a b : date) : bool :=
  (year b <? year a) ||
  ((year b =? year a) &&
   ((month b <? month a) || ((month b =? month a) && (day b <=? day a)))).

(** [datetime(2024, 7, 18)] where [datetime] is the imported *module*:
    a module object is not callable. *)
Definition datetime_module_call (y m d : Z) : result date := Raise TypeError.

(** [datetime.datetime(y, m, d)] *)
Definition datetime_datetime (y m d : Z) : result date := Ok (Date y m d).

Section StructuredOutput.

(** [datetime.datetime.strptime(s, "%Y-%m-%d")]; [None] stands for the
    [ValueError] it raises on text that is not such a date. *)
Variable strptime : string -> option date.

Definition strptime_ymd (s : string) : result date :=
  of_option ValueError (strptime s).

Definition check_structured_output_support (model : string) : result bool :=
  let model_name := Py.lower model in
  if String.eqb model_name "gpt-4o-mini" then Ok true else
  mini <- (if Py.contains "gpt-4o-mini-" model_name then
             suffix <- Py.index (Py.split "gpt-4o-mini-" model_name) 1 ;;
             mini_date <- strptime_ymd suffix ;;
             bound <- datetime_module_call 2024 7 18 ;;
             Ok (date_ge mini_date bound)
           else Ok false) ;;
  if (mini : bool) then Ok true else
  if Py.in_list model_name ["gpt-4o"; "o1"] then Ok true else
  base <- (if Py.contains "gpt-4o-" model_name then
             suffix <- Py.index (Py.split "gpt-4o-" model_name) 1 ;;
             base_date <- strptime_ymd suffix ;;
             bound <- datetime_datetime 2024 8 6 ;;
             Ok (date_ge base_date bound)
           else Ok false) ;;
  if (base : bool) then Ok true else
  o1 <- (if Py.contains "o1-" model_name then
           suffix <- Py.index (Py.split "o1-" model_name) 1 ;;
           base_date <- strptime_ymd suffix ;;
           bound <- datetime_datetime 2024 12 17 ;;
           Ok (date_ge base_date bound)
         else Ok false) ;;
  if (o1 : bool) then Ok true else
  Ok false.

End StructuredOutput.

(** ** Python operations on decoded JSON values *)

Definition is_None (v : json) : bool :=
  match v with
  | JNull => true
  | _ => false
  end.

Definition json_is_str (k : string) (v : json) : bool :=
  match v with
  | JStr s => String.eqb k s
  | _ => false
  end.

(** [d[k]] on the items of a dict: the binding of [k], if any. *)
Fixpoint assoc (k : string) (kvs : list (string * json)) : option json :=
  match kvs with
  | [] => None
  | (k', v) :: rest => if String.eqb k k' then Some v else assoc k rest
  end.

(** [k in v] for a string [k]: key test on a dict, element test on a list,
    substring test on a string, [TypeError] on anything else. *)
Definition py_in (k : string) (v : json) : result bool :=
  match v with
  | JObj kvs => Ok (match assoc k kvs with Some _ => true | None => false end)
  | JArr xs => Ok (existsb (json_is_str k) xs)
  | JStr s => Ok (Py.contains k s)
  | _ => Raise TypeError
  end.

(** [v[k]] for a string [k]. *)
Definition py_getitem (v : json) (k : string) : result json :=
  match v with
  | JObj kvs => of_option KeyError (assoc k kvs)
  | _ => Raise TypeError
  end.

(** [v[i]] for a non-negative integer literal [i]. *)
Definition py_getindex (v : json) (i : nat) : result json :=
  match v with
  | JArr xs => of_option IndexError (nth_error xs i)
  | JStr s =>
      of_option IndexError
        (option_map (fun c => JStr (String c EmptyString)) (String.get i s))
  | JObj _ => Raise KeyError
  | _ => Raise TypeError
  end.

(** [v.get(k, default)] *)
Definition py_get (v : json) (k : string) (default : json) : result json :=
  match v with
  | JObj kvs => Ok (match assoc k kvs with Some x => x | None => default end)
  | _ => Raise AttributeError
  end.

(** [v.lower()] *)
Definition py_lower (v : json) : result string :=
  match v with
  | JStr s => Ok (Py.lower s)
  | _ => Raise AttributeError
  end.

(** Truth value of an [Optional[List[str]]]: [None] and [[]] are false. *)
Definition truthy (errors : option (list string)) : bool :=
  match errors with
  | Some (_ :: _) => true
  | _ => false
  end.

(** ** Code that mutates a state and may raise *)

Definition M (S A : Type) : Type := S -> S * result A.

Definition ret {S A} (a : A) : M S A := fun st => (st, Ok a).

Definition lift {S A} (r : result A) : M S A := fun st => (st, r).

Definition mbind {S A B} (m : M S A) (k : A -> M S B) : M S B :=
  fun st =>
    match m st with
    | (st', Ok a) => k a st'
    | (st', Raise e) => (st', Raise e)
    end.

Definition modify {S} (f : S -> S) : M S unit :=
  fun st => (f st, Ok tt).

Definition get {S} : M S S := fun st => (st, Ok st).

Notation "x <~ m ;; k" := (mbind m (fun x => k))
  (at level 100, m at next level, right associativity).
Notation "m ;;; k" := (mbind m (fun _ => k))
  (at level 100, right associativity).

(** ** Data model *)

(** Modelled from the spec: the class [GenericRequest]
    (types/generic_request.py) is not among the sources; section 3 gives
    [original_row_idx] and the provider-agnostic request content. *)
Record GenericRequest : Type := {
  original_row_idx : Z;
  request_content : json;
}.

(** Modelled from the spec: the class [TokenUsage]
    (types/generic_response.py) is not among the sources; its fields are the
    keyword arguments [call_single_request] passes. *)
Record TokenUsage : Type := {
  prompt_tokens : Z;
  completion_tokens : Z;
  total_tokens : Z;
}.

Section DataModel.

(** Clock readings ([time.time()], [datetime.datetime.now()]) and costs
    are opaque values. *)
Context {Time Cost : Type}.

(** Modelled from the spec: the class [GenericResponse]
    (types/generic_response.py) is not among the sources; its fields are
    the keyword arguments [call_single_request] passes.  A
    [response_message] of [None] is [JNull]. *)
Record GenericResponse : Type := {
  response_message : json;
  response_errors : option (list string);
  raw_request : json;
  raw_response : json;
  generic_request : GenericRequest;
  created_at : Time;
  finished_at : Time;
  token_usage : option TokenUsage;
  response_cost : option Cost;
}.

(** The dataclass [APIRequest].  Its fields [generic_request], [result] and
    [created_at] carry the prefix [api_] here, since [GenericResponse] has
    fields of the same names; [prompt_formatter] is the processor's own
    formatter in every request and is left out. *)
Record APIRequest : Type := {
  task_id : Z;
  api_generic_request : GenericRequest;
  api_specific_request : json;
  api_result : list json;
  api_created_at : Time;
}.

(** Modelled from the spec: the class [OnlineStatusTracker]
    (status_tracker.py) is not among the sources; section 3 lists its
    counters. *)
Record StatusTracker : Type := {
  num_tasks_started : Z;
  num_tasks_in_progress : Z;
  num_tasks_succeeded : Z;
  num_tasks_failed : Z;
  num_api_errors : Z;
  num_rate_limit_errors : Z;
  num_other_errors : Z;
  time_of_last_rate_limit_error : Time;
}.

(** What a run can be observed to do: the files (a path mapped to the
    lines of the file) and the calls made to the hooks a subclass
    provides. *)
Inductive hook_call : Type :=
| LoadOfflineModel
| ProcessRequests (requests : list APIRequest).

Record World : Type := {
  files : gmap string (list string);
  calls : list hook_call;
}.

Definition set_files (f : gmap string (list string) -> gmap string (list string))
    (w : World) : World :=
  {| files := f (files w); calls := calls w |}.

Definition log_call (c : hook_call) (w : World) : World :=
  {| files := files w; calls := calls w ++ [c] |}.

End DataModel.

(** ** [file_utilities] *)

(** [buf.count(b"\n")] *)
Fixpoint count_newlines (buf : list byte) : Z :=
  match buf with
  | [] => 0
  | b :: buf' => (if Byte.eqb b x0a then 1 else 0) + count_newlines buf'
  end.

(** The first [k] bytes of [l] and what is left after them. *)
Fixpoint take_bytes (k : N) (l : list byte) : list byte * list byte :=
  match l with
  | [] => ([], [])
  | b :: l' =>
      if N.eqb k 0 then ([], l)
      else let '(chunk, rest) := take_bytes (N.pred k) l' in (b :: chunk, rest)
  end.

Section FileUtilities.

(** A raw read may hand over fewer bytes than it is asked for: [short rest]
    is the number the system offers when [rest] is still to be read.  A read
    gives no byte only at the end of the file. *)
Variable short : list byte -> N.

(** [f.raw.read(n)] with [rest] still to be read: the bytes read and the
    bytes left. *)
Definition raw_read (n : N) (rest : list byte) : list byte * list byte :=
  take_bytes (N.max 1 (N.min n (short rest))) rest.

(** The chunks [_file_gen(f.raw.read)] yields; [fuel] bounds the number of
    reads, [None] meaning that the generator is still reading after that
    many. *)
Fixpoint _file_gen (fuel : nat) (rest : list byte) : option (list (list byte)) :=
  match fuel with
  | O => None
  | S fuel' =>
      let '(b, rest') := raw_read (1024 * 1024) rest in
      match b with
      | [] => Some []
      | _ :: _ =>
          match _file_gen fuel' rest' with
          | Some chunks => Some (b :: chunks)
          | None => None
          end
      end
  end.

(** [count_lines(filename)] on binary files [files]. *)
Definition count_lines (fuel : nat) (files : gmap string (list byte))
    (filename : string) : option (result Z) :=
  match files !! filename with
  | None => Some (Raise FileNotFoundError)
  | Some content =>
      match _file_gen fuel content with
      | Some f_gen => Some (Ok (foldr Z.add 0 (map count_newlines f_gen)))
      | None => None
      end
  end.

End FileUtilities.

(** The bytes of a text file made of the given lines, each closed by a
    newline. *)
Definition lines_bytes (lines : list (list byte)) : list byte :=
  concat (map (fun line => line ++ [x0a]) lines).

(** ** Set-up of [OpenAIOnlineRequestProcessor] *)

(** [self.url] as [__init__] sets it from [self.config.base_url]. *)
Definition init_url (base_url : option string) : string :=
  match base_url with
  | None => "https://api.openai.com/v1/chat/completions"
  | Some base => (base ++ "/chat/completions")%string
  end.

(** [f"{self.api_key}"] *)
Definition format_api_key (api_key : option string) : string :=
  match api_key with
  | Some key => key
  | None => "None"
  end.

(** [not self.api_key] *)
Definition api_key_missing (api_key : option string) : bool :=
  match api_key with
  | None => true
  | Some key => String.eqb key ""
  end.

(** A call of [requests.post] or [session.post]. *)
Record http_post : Type := {
  post_url : string;
  post_headers : list (string * string);
  post_json : json;
}.

(** The request [call_single_request] posts: an Azure deployment gets an
    [api-key] header, every other URL a bearer token. *)
Definition call_single_request_post (url : string) (api_key : option string)
    (api_specific_request : json) : http_post :=
  let request_header :=
    if Py.contains "/deployments" url
    then [("api-key", format_api_key api_key)]
    else [("Authorization", ("Bearer " ++ format_api_key api_key)%string)] in
  {| post_url := url; post_headers := request_header;
     post_json := api_specific_request |}.

Section RateLimits.

(** [int(text)] on the text of a header; [None] when it raises
    [ValueError]. *)
Variable py_int : string -> option Z.

(** [requests.post(...)]: an exception, or the [headers.get] of the
    response. *)
Variable requests_post : http_post -> result (string -> option string).

(** [int(response.headers.get(name, 0))] *)
Definition header_limit (headers : string -> option string) (name : string)
  : result Z :=
  match headers name with
  | Some text => of_option ValueError (py_int text)
  | None => Ok 0
  end.

(** The state is the list of requests posted so far. *)
Definition get_header_based_rate_limits (url model : string)
    (api_key : option string) : M (list http_post) (Z * Z) :=
  if api_key_missing api_key then lift (Raise ValueError)
  else
    let post :=
      {| post_url := url;
         post_headers :=
           [("Authorization", ("Bearer " ++ format_api_key api_key)%string)];
         post_json := JObj [("model", JStr model); ("messages", JArr [])] |} in
    modify (fun posted => posted ++ [post]) ;;;
    response <~ lift (requests_post post) ;;
    rpm <~ lift (header_limit response "x-ratelimit-limit-requests") ;;
    tpm <~ lift (header_limit response "x-ratelimit-limit-tokens") ;;
    ret (rpm, tpm).

(** [tiktoken.get_encoding(name)]: the encoding object, or the exception
    the library raises. *)
Context {Encoding : Type}.
Variable tiktoken_get_encoding : string -> result Encoding.

(** [super().__init__(config)]: the constructor of
    [BaseOnlineRequestProcessor], which is not among the sources. *)
Variable super_init : result unit.

Definition get_token_encoding (model : string) : result Encoding :=
  let name :=
    if String.prefix "gpt-4" model then "cl100k_base"
    else if String.prefix "gpt-3.5" model then "cl100k_base"
    else "cl100k_base" in
  tiktoken_get_encoding name.

(** What [__init__] leaves in the processor. *)
Record OnlineProcessor : Type := {
  url : string;
  api_key : option string;
  token_encoding : Encoding;
  header_based_max_requests_per_minute : Z;
  header_based_max_tokens_per_minute : Z;
}.

(** [__init__]; [env_key] is [os.getenv("OPENAI_API_KEY")]. *)
Definition init (model : string) (base_url env_key : option string)
  : M (list http_post) OnlineProcessor :=
  lift super_init ;;;
  let url := init_url base_url in
  let api_key := env_key in
  token_encoding <~ lift (get_token_encoding model) ;;
  limits <~ get_header_based_rate_limits url model api_key ;;
  ret {| url := url;
         api_key := api_key;
         token_encoding := token_encoding;
         header_based_max_requests_per_minute := fst limits;
         header_based_max_tokens_per_minute := snd limits |}.

End RateLimits.

(** ** Sample data used to run the definitions *)
Module Sample.

(** A [strptime] for ["%Y-%m-%d"] restricted to the shape [dddd-dd-dd]
    (the day is not checked against the length of the month). *)
Definition digit (c : ascii) : option Z :=
  let n := nat_of_ascii c in
  if (Nat.leb 48 n && Nat.leb n 57)%bool then Some (Z.of_nat (n - 48)) else None.

Definition strptime (s : string) : option date :=
  match list_ascii_of_string s with
  | [y1; y2; y3; y4; "-"%char; m1; m2; "-"%char; d1; d2] =>
      match digit y1, digit y2, digit y3, digit y4,
            digit m1, digit m2, digit d1, digit d2 with
      | Some a, Some b, Some c, Some d, Some e, Some f, Some g, Some h =>
          let y := 1000 * a + 100 * b + 10 * c + d in
          let m := 10 * e + f in
          let dd := 10 * g + h in
          if (1 <=? y) && (1 <=? m) && (m <=? 12) && (1 <=? dd) && (dd <=? 31)
          then Some (Date y m dd) else None
      | _, _, _, _, _, _, _, _ => None
      end
  | _ => None
  end.

(** *** A tracker, a request and three replies *)

Definition tracker : @StatusTracker Z :=
  {| num_tasks_started := 0; num_tasks_in_progress := 0;
     num_tasks_succeeded := 0; num_tasks_failed := 0;
     num_api_errors := 0; num_rate_limit_errors := 0; num_other_errors := 0;
     time_of_last_rate_limit_error := 0 |}.

Definition row (i : Z) : GenericRequest :=
  {| original_row_idx := i;
     request_content := JObj [("prompt", JStr "Say '1'. Do not explain.")] |}.

Definition api_request : @APIRequest Z :=
  {| task_id := 7;
     api_generic_request := row 7;
     api_specific_request :=
       JObj [("model", JStr "gpt-4o-mini");
             ("messages",
              JArr [JObj [("role", JStr "user");
                          ("content", JStr "Say '1'. Do not explain.")]])];
     api_result := [];
     api_created_at := 100 |}.

Definition rate_limit_body : json :=
  JObj [("error",
         JObj [("message", JStr "Rate limit reached for gpt-4o-mini");
               ("type", JStr "requests")])].

Definition rate_limit_error : list (string * json) :=
  [("message", JStr "Rate limit reached for gpt-4o-mini");
   ("type", JStr "requests")].

Definition usage_body : json :=
  JObj [("prompt_tokens", JNum 12); ("completion_tokens", JNum 1);
        ("total_tokens", JNum 13)].

Definition ok_body : json :=
  JObj [("choices",
         JArr [JObj [("index", JNum 0);
                     ("message",
                      JObj [("role", JStr "assistant"); ("content", JStr "1")])]]);
        ("usage", usage_body)].

Definition empty_body : json := JObj [].

Definition int_field (v : json) : option Z :=
  match v with
  | JNum n => Some n
  | _ => None
  end.

Definition completion_cost (response : json) : result Z := Ok 3.

Definition GenericResponse_valid (r : @GenericResponse Z Z) : bool := true.

(** *** A response log and a request file *)

Fixpoint strip_prefix (p s : string) : option string :=
  match p, s with
  | EmptyString, _ => Some s
  | String a p', String b s' => if Ascii.eqb a b then strip_prefix p' s' else None
  | String _ _, EmptyString => None
  end.

Definition parse_idx (s : string) : option Z :=
  match s with
  | String c EmptyString => digit c
  | _ => None
  end.

Definition show_idx (i : Z) : string := NilZero.string_of_int (Z.to_int i).

Definition response (message : json) (errors : option (list string)) (i : Z)
  : @GenericResponse Z Z :=
  {| response_message := message;
     response_errors := errors;
     raw_request := JNull;
     raw_response := JNull;
     generic_request := row i;
     created_at := 0;
     finished_at := 1;
     token_usage := None;
     response_cost := None |}.

(** ["done i"] is a response with a message and no error, ["failed i"] one
    with errors and no message, ["partial i"] one with a message and a
    non-empty list of errors. *)
Definition parse_response (line : string) : option (@GenericResponse Z Z) :=
  match strip_prefix "done " line with
  | Some i => option_map (response (JStr "1") None) (parse_idx i)
  | None =>
      match strip_prefix "failed " line with
      | Some i =>
          option_map (response JNull (Some ["Request timed out"])) (parse_idx i)
      | None =>
          match strip_prefix "partial " line with
          | Some i =>
              option_map (response (JStr "1") (Some ["Request timed out"]))
                (parse_idx i)
          | None => None
          end
      end
  end.

Definition parse_request (line : string) : option GenericRequest :=
  match strip_prefix "row " line with
  | Some i => option_map row (parse_idx i)
  | None => None
  end.

Definition dump_response (r : @GenericResponse Z Z) : string :=
  ((if is_None (response_message r) then "failed " else
      if truthy (response_errors r) then "partial " else "done ")
   ++ show_idx (original_row_idx (generic_request r)))%string.

Definition create_api_specific_request (r : GenericRequest) : json :=
  request_content r.

(** A backend that answers every request. *)
Definition process_requests (requests : list (@APIRequest Z))
  : result (list (@GenericResponse Z Z)) :=
  Ok (map (fun a => response (JStr "1") None (task_id a)) requests).

Definition clock (n : nat) : Z := Z.of_nat n.

Definition requests_file : string := "requests_0.jsonl".
Definition responses_file : string := "responses_0.jsonl".

Definition world : @World Z :=
  {| files := <[requests_file := ["row 0"; "row 1"; "row 2"; "row 3"]]>
                (<[responses_file := ["done 1"; "partial 2"; "failed 0"]]> ∅);
     calls := [] |}.

(** *** A binary file and a system that hands over three bytes a read *)

Definition short (rest : list byte) : N := 3.

Definition two_lines : list (list byte) := [[x61; x62; x63; x64]; [x65]].

Definition binary_files : gmap string (list byte) :=
  <["requests_0.jsonl" := (lines_bytes two_lines ++ [x66; x67])%list]> ∅.

(** *** A rate-limit probe *)

Definition py_int (text : string) : option Z :=
  match text with
  | "500" => Some 500
  | "30000" => Some 30000
  | _ => None
  end.

Definition probe_headers (name : string) : option string :=
  if String.eqb name "x-ratelimit-limit-requests" then Some "500"
  else if String.eqb name "x-ratelimit-limit-tokens" then Some "30000"
  else None.

Definition requests_post (post : http_post) : result (string -> option string) :=
  Ok probe_headers.

(** A base constructor that succeeds and an encoding library that knows
    every name (an encoding is stood for by its name). *)
Definition super_init : result unit := Ok tt.

Definition tiktoken_get_encoding (name : string) : result string := Ok name.

(** *** Worlds without a save file, and with a log that has a bad line *)

Definition fresh_world : @World Z :=
  {| files := <[requests_file := ["row 0"; "row 1"]]> ∅; calls := [] |}.

Definition empty_world : @World Z := {| files := ∅; calls := [] |}.

Definition corrupt_world : @World Z :=
  {| files := <[requests_file := ["row 0"; "row 1"; "row 2"]]>
                (<[responses_file := ["done 1"; "failed 0"; "{"; "done 2"]]> ∅);
     calls := [] |}.

End Sample.

(** * The request processors *)

Section Curator.

Context {Time Cost : Type}.

Local Abbreviation GenericResponse := (@GenericResponse Time Cost).
Local Abbreviation APIRequest := (@APIRequest Time).
Local Abbreviation StatusTracker := (@StatusTracker Time).
Local Abbreviation World := (@World Time).

(** [status_tracker.num_api_errors += d] *)
Definition add_api_errors (d : Z) (st : StatusTracker) : StatusTracker :=
  {| num_tasks_started := num_tasks_started st;
     num_tasks_in_progress := num_tasks_in_progress st;
     num_tasks_succeeded := num_tasks_succeeded st;
     num_tasks_failed := num_tasks_failed st;
     num_api_errors := num_api_errors st + d;
     num_rate_limit_errors := num_rate_limit_errors st;
     num_other_errors := num_other_errors st;
     time_of_last_rate_limit_error := time_of_last_rate_limit_error st |}.

(** [status_tracker.num_rate_limit_errors += d] *)
Definition add_rate_limit_errors (d : Z) (st : StatusTracker) : StatusTracker :=
  {| num_tasks_started := num_tasks_started st;
     num_tasks_in_progress := num_tasks_in_progress st;
     num_tasks_succeeded := num_tasks_succeeded st;
     num_tasks_failed := num_tasks_failed st;
     num_api_errors := num_api_errors st;
     num_rate_limit_errors := num_rate_limit_errors st + d;
     num_other_errors := num_other_errors st;
     time_of_last_rate_limit_error := time_of_last_rate_limit_error st |}.

(** [status_tracker.num_other_errors += d] *)
Definition add_other_errors (d : Z) (st : StatusTracker) : StatusTracker :=
  {| num_tasks_started := num_tasks_started st;
     num_tasks_in_progress := num_tasks_in_progress st;
     num_tasks_succeeded := num_tasks_succeeded st;
     num_tasks_failed := num_tasks_failed st;
     num_api_errors := num_api_errors st;
     num_rate_limit_errors := num_rate_limit_errors st;
     num_other_errors := num_other_errors st + d;
     time_of_last_rate_limit_error := time_of_last_rate_limit_error st |}.

(** [status_tracker.time_of_last_rate_limit_error = t] *)
Definition set_time_of_last_rate_limit_error (t : Time) (st : StatusTracker)
  : StatusTracker :=
  {| num_tasks_started := num_tasks_started st;
     num_tasks_in_progress := num_tasks_in_progress st;
     num_tasks_succeeded := num_tasks_succeeded st;
     num_tasks_failed := num_tasks_failed st;
     num_api_errors := num_api_errors st;
     num_rate_limit_errors := num_rate_limit_errors st;
     num_other_errors := num_other_errors st;
     time_of_last_rate_limit_error := t |}.

(** The counters of a tracker, in the order of the record. *)
Definition counters (st : StatusTracker) : list Z :=
  [num_tasks_started st; num_tasks_in_progress st; num_tasks_succeeded st;
   num_tasks_failed st; num_api_errors st; num_rate_limit_errors st;
   num_other_errors st].

(** ** [OpenAIOnlineRequestProcessor] *)

(** [self.config.model] *)
Variable model : string.

(** [litellm.get_max_tokens(model=...)]; [None] when the call (or the
    division of what it returns) raises. *)
Variable get_max_tokens : string -> option Z.

(** [str(value)] *)
Variable py_str : json -> string.

(** [self.token_encoding.encode(s, disallowed_special=())]; [None] when it
    raises [TypeError]. *)
Variable encode : string -> option (list Z).

Definition estimate_output_tokens : Z :=
  match get_max_tokens model with
  | Some max_tokens => max_tokens / 4
  | None => 0
  end.

(** The tokens one value adds: the [try] / [except TypeError] of the
    inner loop. *)
Definition value_tokens (value : json) : Z :=
  match encode (py_str value) with
  | Some tokens => Z.of_nat (List.length tokens)
  | None => Z.of_nat (String.length (py_str value)) / 4
  end.

(** Body of [for key, value in message.items()]. *)
Definition count_item (num_tokens : Z) (item : string * json) : Z :=
  let num_tokens := num_tokens + value_tokens (snd item) in
  if String.eqb (fst item) "name" then num_tokens - 1 else num_tokens.

(** Body of [for message in messages]. *)
Definition count_message (num_tokens : Z) (message : gmap string json) : Z :=
  let num_tokens := num_tokens + 4 in
  fold_left count_item (map_to_list message) num_tokens.

Definition estimate_total_tokens (messages : list (gmap string json)) : Z :=
  let num_tokens := fold_left count_message messages 0 in
  let num_tokens := num_tokens + 2 in
  let output_tokens := estimate_output_tokens in
  num_tokens + output_tokens.

(** The token count of the payload the claim about the estimate speaks
    of: what the encoder counts over every value of every message. *)
Definition message_value_tokens (message : gmap string json) : Z :=
  foldr Z.add 0 (map (fun item => value_tokens (snd item)) (map_to_list message)).

Definition payload_tokens (messages : list (gmap string json)) : Z :=
  foldr Z.add 0 (map message_value_tokens messages).

(** Validation of one [int] field of [TokenUsage]; [None] when the
    constructor raises. *)
Variable int_field : json -> option Z.

(** [self.completion_cost(response)] *)
Variable completion_cost : json -> result Cost.

(** Validation the [GenericResponse] constructor runs on its fields. *)
Variable GenericResponse_valid : GenericResponse -> bool.

Definition TokenUsage_init (p c t : json) : result TokenUsage :=
  p' <- of_option ValidationError (int_field p) ;;
  c' <- of_option ValidationError (int_field c) ;;
  t' <- of_option ValidationError (int_field t) ;;
  Ok {| prompt_tokens := p'; completion_tokens := c'; total_tokens := t' |}.

Definition GenericResponse_init (r : GenericResponse) : result GenericResponse :=
  if GenericResponse_valid r then Ok r else Raise ValidationError.

(** [reply] is what [session.post(...)] and [response_obj.json()] give:
    an exception, or the HTTP status with the decoded body.  [now] is
    [time.time()], [finished] is [datetime.datetime.now()]. *)
Definition call_single_request (request : APIRequest)
    (reply : result (Z * json)) (now finished : Time)
  : M StatusTracker GenericResponse :=
  sr <~ lift reply ;;
  let status := fst sr in
  let response := snd sr in
  has_error <~ lift (py_in "error" response) ;;
  (if (has_error : bool) then
     modify (add_api_errors 1) ;;;
     error <~ lift (py_getitem response "error") ;;
     message <~ lift (m <- py_get error "message" (JStr "") ;; py_lower m) ;;
     (if Py.contains "rate limit" message then
        modify (set_time_of_last_rate_limit_error now) ;;;
        modify (add_rate_limit_errors 1) ;;;
        modify (add_api_errors (-1)) ;;;
        modify (add_other_errors (-1))
      else ret tt) ;;;
     lift (Raise (APIError error))
   else ret tt) ;;;
  (if negb (status =? 200) then lift (Raise (StatusError status response))
   else ret tt) ;;;
  response_message <~ lift (choices <- py_getitem response "choices" ;;
                            choice <- py_getindex choices 0 ;;
                            message <- py_getitem choice "message" ;;
                            py_getitem message "content") ;;
  usage <~ lift (py_getitem response "usage") ;;
  token_usage <~ lift (p <- py_getitem usage "prompt_tokens" ;;
                       c <- py_getitem usage "completion_tokens" ;;
                       t <- py_getitem usage "total_tokens" ;;
                       TokenUsage_init p c t) ;;
  cost <~ lift (completion_cost response) ;;
  lift (GenericResponse_init
          {| response_message := response_message;
             response_errors := None;
             raw_request := api_specific_request request;
             raw_response := response;
             generic_request := api_generic_request request;
             created_at := api_created_at request;
             finished_at := finished;
             token_usage := Some token_usage;
             response_cost := Some cost |}).

(** ** [BaseOfflineRequestProcessor] *)

(** [GenericResponse.model_validate_json(line)] and
    [GenericRequest.model_validate_json(line)]; [None] when validation
    raises. *)
Variable parse_response : string -> option GenericResponse.
Variable parse_request : string -> option GenericRequest.

(** [json.dumps(response.model_dump(), default=str) + "\n"] *)
Variable dump_response : GenericResponse -> string.

(** [self.create_api_specific_request(request)] *)
Variable create_api_specific_request : GenericRequest -> json.

(** The hooks [self.load_offline_model()] and [self.process_requests(...)]
    of the concrete subclass. *)
Variable load_offline_model : result unit.
Variable process_requests : list APIRequest -> result (list GenericResponse).

(** [datetime.datetime.now()] at the creation of the [n]-th request. *)
Variable clock : nat -> Time.

(** The variables the two resume loops update. *)
Record Scan : Type := {
  completed_request_ids : gset Z;
  output_file : list string;
  num_previously_failed_requests : Z;
}.

Definition scan_start : Scan :=
  {| completed_request_ids := ∅; output_file := [];
     num_previously_failed_requests := 0 |}.

Definition count_failed (sc : Scan) : Scan :=
  {| completed_request_ids := completed_request_ids sc;
     output_file := output_file sc;
     num_previously_failed_requests := num_previously_failed_requests sc + 1 |}.

Definition mark_completed (idx : Z) (sc : Scan) : Scan :=
  {| completed_request_ids := {[ idx ]} ∪ completed_request_ids sc;
     output_file := output_file sc;
     num_previously_failed_requests := num_previously_failed_requests sc |}.

Definition write_line (line : string) (sc : Scan) : Scan :=
  {| completed_request_ids := completed_request_ids sc;
     output_file := output_file sc ++ [line];
     num_previously_failed_requests := num_previously_failed_requests sc |}.

(** Loop body under [if resume:]. *)
Definition retry_step (line : string) (response : GenericResponse) (sc : Scan) : Scan :=
  let sc := if truthy (response_errors response) then count_failed sc else sc in
  if is_None (response_message response)
  then count_failed sc
  else write_line line
         (mark_completed (original_row_idx (generic_request response)) sc).

(** Loop body under [elif resume_no_retry:]. *)
Definition no_retry_step (response : GenericResponse) (sc : Scan) : Scan :=
  let sc := if truthy (response_errors response) then count_failed sc else sc in
  mark_completed (original_row_idx (generic_request response)) sc.

(** [for line in input_file: ...] of the [resume] branch. *)
Fixpoint scan_retry (lines : list string) : M Scan unit :=
  match lines with
  | [] => ret tt
  | line :: rest =>
      response <~ lift (of_option ValidationError (parse_response line)) ;;
      modify (retry_step line response) ;;;
      scan_retry rest
  end.

(** [for line in input_file: ...] of the [resume_no_retry] branch. *)
Fixpoint scan_no_retry (lines : list string) : M Scan unit :=
  match lines with
  | [] => ret tt
  | line :: rest =>
      response <~ lift (of_option ValidationError (parse_response line)) ;;
      modify (no_retry_step response) ;;;
      scan_no_retry rest
  end.

(** [os.replace(src, dst)] *)
Definition os_replace (src dst : string) : M World unit :=
  w <~ get ;;
  match files w !! src with
  | Some content => modify (set_files (fun fs => <[dst := content]> (delete src fs)))
  | None => lift (Raise FileNotFoundError)
  end.

(** The first part of [process_requests_from_file], up to the hook calls:
    the completed set, or [None] when the function returns at the
    prompt.  [user_input] is what [input(...)] reads ([None]: end of
    input). *)
Definition resume_state (user_input : option string)
    (save_filepath : string) (resume resume_no_retry : bool)
  : M World (option (gset Z)) :=
  w <~ get ;;
  match files w !! save_filepath with
  | Some lines =>
      if resume then
        let temp_filepath := (save_filepath ++ ".temp")%string in
        let '(sc, r) := scan_retry lines scan_start in
        modify (set_files (fun fs => <[temp_filepath := output_file sc]> fs)) ;;;
        lift r ;;;
        os_replace temp_filepath save_filepath ;;;
        ret (Some (completed_request_ids sc))
      else if resume_no_retry then
        let '(sc, r) := scan_no_retry lines scan_start in
        lift r ;;;
        ret (Some (completed_request_ids sc))
      else
        user_input <~ lift (of_option EOFError user_input) ;;
        if negb (Py.in_list (Py.lower user_input) ["y"; ""])
        then ret None
        else ret (Some ∅)
  | None => ret (Some ∅)
  end.

(** [for line in f: ...] building [requests]. *)
Fixpoint build_requests (lines : list string) (completed : gset Z)
    (requests : list APIRequest) : result (list APIRequest) :=
  match lines with
  | [] => Ok requests
  | line :: rest =>
      request <- of_option ValidationError (parse_request line) ;;
      if bool_decide (original_row_idx request ∉ completed)
      then build_requests rest completed
             (requests ++
              [{| task_id := original_row_idx request;
                  api_generic_request := request;
                  api_specific_request := create_api_specific_request request;
                  api_result := [];
                  api_created_at := clock (List.length requests) |}])
      else build_requests rest completed requests
  end.

(** [open(path, "r")] followed by reading every line. *)
Definition read_lines (path : string) : M World (list string) :=
  w <~ get ;;
  lift (of_option FileNotFoundError (files w !! path)).

(** [with open(path, "a") as f: f.write(...)] for each of [lines]. *)
Definition append_lines (path : string) (lines : list string) : M World unit :=
  modify (set_files (fun fs => <[path := default [] (fs !! path) ++ lines]> fs)).

(** The second part of [process_requests_from_file]: load the model if
    need be, build the requests not yet completed, hand them to
    [process_requests] and append the responses to the save file.
    [has_model_class] is [hasattr(self, "model_class")] on entry. *)
Definition run_remaining (has_model_class : bool)
    (generic_request_filepath save_filepath : string)
    (completed_request_ids : gset Z) : M World unit :=
  (if has_model_class then ret tt
   else modify (log_call LoadOfflineModel) ;;; lift load_offline_model) ;;;
  _total <~ read_lines generic_request_filepath ;;
  lines <~ read_lines generic_request_filepath ;;
  requests <~ lift (build_requests lines completed_request_ids []) ;;
  modify (log_call (ProcessRequests requests)) ;;;
  responses <~ lift (process_requests requests) ;;
  append_lines save_filepath (map dump_response responses).

Definition process_requests_from_file (has_model_class : bool)
    (user_input : option string)
    (generic_request_filepath save_filepath : string)
    (resume resume_no_retry : bool) : M World unit :=
  completed <~ resume_state user_input save_filepath resume resume_no_retry ;;
  match completed with
  | None => ret tt
  | Some completed_request_ids =>
      run_remaining has_model_class generic_request_filepath save_filepath
        completed_request_ids
  end.

(** The rows handed to [process_requests] in the course of a run. *)
Definition submitted_rows (w : World) : list Z :=
  flat_map (fun c => match c with
                     | ProcessRequests requests => map task_id requests
                     | LoadOfflineModel => []
                     end) (calls w).

(** A failed response in the words of the specification: non-empty
    [response_errors] or a null [response_message]. *)
Definition failed (response : GenericResponse) : bool :=
  truthy (response_errors response) || is_None (response_message response).

(** The row a logged response belongs to. *)
Definition response_row (response : GenericResponse) : Z :=
  original_row_idx (generic_request response).

(** The hook calls [run_remaining] makes when nothing raises before
    [process_requests]. *)
Definition hook_calls (has_model_class : bool) (requests : list APIRequest)
  : list hook_call :=
  (if has_model_class then [] else [LoadOfflineModel])
  ++ [ProcessRequests requests].

(** [request_file.replace("requests_", "responses_")] *)
Definition response_file_of (request_file : string) : string :=
  Py.replace "requests_" "responses_" request_file.

(** [requests_to_responses].  [has_model_class] is
    [hasattr(self, "model_class")] on entry and [load_sets_model_class]
    tells whether the hook [load_offline_model] of the subclass leaves that
    attribute set.  With [resume=True] the prompt is never reached, so no
    input is read. *)
Fixpoint requests_to_responses (load_sets_model_class has_model_class : bool)
    (generic_request_files : list string) : M World unit :=
  match generic_request_files with
  | [] => ret tt
  | request_file :: rest =>
      let response_file := response_file_of request_file in
      process_requests_from_file has_model_class None request_file response_file
        true false ;;;
      requests_to_responses load_sets_model_class
        (has_model_class || load_sets_model_class) rest
  end.

(** The number of calls of [load_offline_model] in the course of a run. *)
Definition model_loads (w : World) : nat :=
  List.length (List.filter (fun c => match c with
                                     | LoadOfflineModel => true
                                     | ProcessRequests _ => false
                                     end) (calls w)).

(** The request [build_requests] makes of a row, as the [n]-th one. *)
Definition api_request_of (n : nat) (request : GenericRequest) : APIRequest :=
  {| task_id := original_row_idx request;
     api_generic_request := request;
     api_specific_request := create_api_specific_request request;
     api_result := [];
     api_created_at := clock n |}.

Definition is_name (item : string * json) : bool := String.eqb (fst item) "name".


(** * Properties *)

(** Tactics that drop the hooks of the other components from a goal. *)
Ltac forget_estimate :=
  try clear model; try clear get_max_tokens; try clear encode; try clear py_str.
Ltac forget_online :=
  try clear int_field; try clear completion_cost; try clear GenericResponse_valid.
Ltac forget_offline :=
  try clear load_offline_model; try clear process_requests; try clear clock;
  try clear dump_response; try clear create_api_specific_request;
  try clear parse_response; try clear parse_request.
Ltac forget_hooks := forget_estimate; forget_online; forget_offline.

(** ** [estimate_total_tokens] *)

Lemma value_tokens_nonneg (v : json) : 0 <= value_tokens v.
Proof.
  forget_hooks.
  unfold value_tokens. destruct (encode (py_str v)); [lia|].
  apply Z.div_pos; lia.
Qed.

(** The inner loop adds the value tokens and takes one off per ["name"]
    key. *)
Lemma fold_count_item (items : list (string * json)) (acc : Z) :
  fold_left count_item items acc
  = acc + foldr Z.add 0 (map (fun item => value_tokens (snd item)) items)
    - Z.of_nat (List.length (List.filter is_name items)).
Proof.
  forget_hooks.
  revert acc; induction items as [|[k v] items IH]; intros acc; simpl.
  - lia.
  - rewrite IH. unfold count_item, is_name; simpl.
    destruct (String.eqb k "name"); simpl; lia.
Qed.

(** A dict has at most one ["name"] key. *)
Lemma name_keys_le_1 (items : list (string * json)) :
  NoDup (map fst items) ->
  (List.length (List.filter is_name items) <= 1)%nat.
Proof.
  forget_hooks.
  induction items as [|[k v] items IH]; simpl; intros Hnd; [lia|].
  apply NoDup_cons in Hnd as [Hnotin Hnd].
  unfold is_name at 1; simpl.
  destruct (String.eqb k "name") eqn:E; [|auto].
  apply String.eqb_eq in E; subst k. simpl.
  assert (List.filter is_name items = []) as ->; [|simpl; lia].
  clear -Hnotin. induction items as [|[k v] items IH]; simpl; [reflexivity|].
  unfold is_name at 1; simpl.
  destruct (String.eqb k "name") eqn:E.
  - apply String.eqb_eq in E; subst k. exfalso; apply Hnotin; simpl.
    apply list_elem_of_here.
  - apply IH. intros Hin; apply Hnotin; simpl. now apply list_elem_of_further.
Qed.

Lemma count_message_bounds (message : gmap string json) (acc : Z) :
  acc + 3 + message_value_tokens message <= count_message acc message
  /\ count_message acc message <= acc + 4 + message_value_tokens message.
Proof.
  forget_hooks.
  unfold count_message, message_value_tokens.
  rewrite fold_count_item.
  pose proof (name_keys_le_1 (map_to_list message)
                (NoDup_fst_map_to_list message)).
  lia.
Qed.

Lemma fold_count_message_bounds (messages : list (gmap string json)) (acc : Z) :
  acc + 3 * Z.of_nat (List.length messages) + payload_tokens messages
    <= fold_left count_message messages acc
  /\ fold_left count_message messages acc
    <= acc + 4 * Z.of_nat (List.length messages) + payload_tokens messages.
Proof.
  forget_hooks.
  revert acc; induction messages as [|m messages IH]; intros acc.
  - unfold payload_tokens; simpl; lia.
  - cbn [fold_left List.length].
    specialize (IH (count_message acc m)).
    pose proof (count_message_bounds m acc).
    unfold payload_tokens in *; cbn [map foldr] in *.
    lia.
Qed.

(** C3 (amended): the estimate is at least the token count of the payload
    values plus a quarter of the model's maximum tokens, rounded down,
    and zero when that maximum cannot be looked up; the formatting
    overhead adds between [3 * n + 2] and [4 * n + 2] tokens for [n]
    messages. *)
Theorem estimate_total_tokens_quarter_bound (messages : list (gmap string json)) :
  let output_tokens :=
    match get_max_tokens model with
    | Some max_tokens => max_tokens / 4
    | None => 0
    end in
  payload_tokens messages + output_tokens <= estimate_total_tokens messages
  /\ payload_tokens messages + 3 * Z.of_nat (List.length messages) + 2 + output_tokens
     <= estimate_total_tokens messages
  /\ estimate_total_tokens messages
     <= payload_tokens messages + 4 * Z.of_nat (List.length messages) + 2 + output_tokens.
Proof.
  forget_hooks.
  intros output_tokens.
  unfold estimate_total_tokens, estimate_output_tokens.
  fold output_tokens.
  pose proof (fold_count_message_bounds messages 0).
  lia.
Qed.

(** ** [call_single_request] *)

Ltac run_call :=
  unfold call_single_request, mbind, lift, modify, ret; cbn [fst snd bind].

Ltac red_py :=
  cbn [fst snd bind of_option py_in py_getitem py_getindex py_get py_lower
       nth_error].

Ltac step_result :=
  match goal with
  | |- context [match ?x with Ok _ => _ | Raise _ => _ end] =>
      destruct x eqn:?; cbn [fst snd bind]
  end.

(** What one call does to the tracker, by the kind of reply: an error
    whose lower-cased message contains "rate limit" gets the rate-limit
    update, every other error one more API error, and a reply without error
    leaves the tracker as it was. *)
Lemma call_single_request_tracker request reply now finished st :
  let st' := fst (call_single_request request reply now finished st) in
  match reply with
  | Ok (status, response) =>
      match py_in "error" response with
      | Ok true =>
          match (error <- py_getitem response "error" ;;
                 m <- py_get error "message" (JStr "") ;;
                 py_lower m) with
          | Ok message =>
              if Py.contains "rate limit" message
              then st' = add_other_errors (-1) (add_api_errors (-1)
                           (add_rate_limit_errors 1
                              (set_time_of_last_rate_limit_error now
                                 (add_api_errors 1 st))))
              else st' = add_api_errors 1 st
          | Raise _ => st' = add_api_errors 1 st
          end
      | _ => st' = st
      end
  | Raise _ => st' = st
  end.
Proof.
  forget_hooks.
  intros st'; subst st'. run_call.
  destruct reply as [[status response]|e]; cbn [fst snd]; [|reflexivity].
  destruct (py_in "error" response) as [[|]|e]; cbn [fst snd]; [| |reflexivity].
  - destruct (py_getitem response "error") as [error|e]; cbn [bind fst snd];
      [|reflexivity].
    destruct (py_get error "message" (JStr "")) as [m|e]; cbn [bind fst snd];
      [|reflexivity].
    destruct (py_lower m) as [msg|e]; cbn [fst snd]; [|reflexivity].
    destruct (Py.contains "rate limit" msg); reflexivity.
  - destruct (negb (status =? 200)); cbn [fst snd]; [reflexivity|].
    repeat step_result; reflexivity.
Qed.

(** C2 (amended): a call never lowers a counter other than
    [num_other_errors].  When the reply carries an error whose lower-cased
    message contains "rate limit", the call adds one to
    [num_rate_limit_errors], takes one off [num_other_errors] (the increment
    and decrement of [num_api_errors] cancel) and stamps the time; for every
    other reply that carries an error it adds one to [num_api_errors] alone;
    any other call leaves the tracker as it was. *)
Theorem call_single_request_counter_updates request reply now finished st :
  let st' := fst (call_single_request request reply now finished st) in
  Forall2 Z.le (take 6 (counters st)) (take 6 (counters st')) /\
  num_other_errors st - 1 <= num_other_errors st' <= num_other_errors st /\
  match reply with
  | Ok (status, response) =>
      match py_in "error" response with
      | Ok true =>
          match (error <- py_getitem response "error" ;;
                 m <- py_get error "message" (JStr "") ;;
                 py_lower m) with
          | Ok message =>
              if Py.contains "rate limit" message
              then counters st'
                   = counters (add_other_errors (-1) (add_rate_limit_errors 1 st))
                   /\ time_of_last_rate_limit_error st' = now
              else counters st' = counters (add_api_errors 1 st)
                   /\ time_of_last_rate_limit_error st'
                      = time_of_last_rate_limit_error st
          | Raise _ =>
              counters st' = counters (add_api_errors 1 st)
              /\ time_of_last_rate_limit_error st'
                 = time_of_last_rate_limit_error st
          end
      | _ => st' = st
      end
  | Raise _ => st' = st
  end.
Proof.
  forget_hooks.
  intros st'.
  pose proof (call_single_request_tracker request reply now finished st) as H.
  cbv zeta in H. fold st' in H.
  assert (Hcases : st' = st \/ st' = add_api_errors 1 st \/
            st' = add_other_errors (-1) (add_api_errors (-1)
                    (add_rate_limit_errors 1
                       (set_time_of_last_rate_limit_error now
                          (add_api_errors 1 st))))).
  { destruct reply as [[status response]|e]; [|now left].
    destruct (py_in "error" response) as [[|]|e]; try now left.
    destruct (error <- py_getitem response "error" ;;
              m <- py_get error "message" (JStr "") ;;
              py_lower m) as [message|e]; [|tauto].
    destruct (Py.contains "rate limit" message); tauto. }
  split; [|split].
  - destruct Hcases as [->|[->| ->]]; cbn;
      repeat (constructor; try lia).
  - destruct Hcases as [->|[->| ->]]; cbn; lia.
  - destruct reply as [[status response]|e]; [|exact H].
    destruct (py_in "error" response) as [[|]|e]; try exact H.
    destruct (error <- py_getitem response "error" ;;
              m <- py_get error "message" (JStr "") ;;
              py_lower m) as [message|e]; [|now rewrite H].
    destruct (Py.contains "rate limit" message); [|now rewrite H].
    rewrite H. split; [|reflexivity].
    unfold counters; cbn. repeat f_equal; lia.
Qed.

(** C7: a reply whose ["error"] object has a message containing
    "rate limit" in any letter case makes the call raise, stamps
    [time_of_last_rate_limit_error] with the current time and adds one to
    [num_rate_limit_errors]; [num_api_errors] ends where it started. *)
Theorem call_single_request_rate_limit
    request status kvs error_kvs message now finished st :
  assoc "error" kvs = Some (JObj error_kvs) ->
  assoc "message" error_kvs = Some (JStr message) ->
  Py.contains "rate limit" (Py.lower message) = true ->
  let out := call_single_request request (Ok (status, JObj kvs)) now finished st in
  snd out = Raise (APIError (JObj error_kvs)) /\
  time_of_last_rate_limit_error (fst out) = now /\
  num_rate_limit_errors (fst out) = num_rate_limit_errors st + 1 /\
  num_api_errors (fst out) = num_api_errors st.
Proof.
  forget_hooks.
  intros Herror Hmessage Hrate out; subst out. run_call.
  cbn [py_in py_getitem]. rewrite Herror. red_py.
  rewrite Hmessage. red_py. rewrite Hrate. cbn.
  repeat split; lia.
Qed.

(** An ["error"] object whose message does not mention a rate limit
    raises as well but leaves the rate-limit fields alone. *)
Lemma call_single_request_other_error
    request status kvs error_kvs message now finished st :
  assoc "error" kvs = Some (JObj error_kvs) ->
  assoc "message" error_kvs = Some (JStr message) ->
  Py.contains "rate limit" (Py.lower message) = false ->
  call_single_request request (Ok (status, JObj kvs)) now finished st
  = (add_api_errors 1 st, Raise (APIError (JObj error_kvs))).
Proof.
  forget_hooks.
  intros Herror Hmessage Hrate. run_call.
  cbn [py_in py_getitem]. rewrite Herror. red_py.
  rewrite Hmessage. red_py. rewrite Hrate. reflexivity.
Qed.

(** C8 (amended): the call returns a response exactly when the reply has
    no ["error"] key, its status is 200, the body carries
    [choices[0].message.content] and a [usage] with the three token
    counts as valid integers, the cost is computed and the response
    validates; the response then has no errors, that content as its
    message and the usage fields as its token usage, and the tracker is
    untouched.  In every other case the call raises. *)
Theorem call_single_request_returns_iff
    request reply now finished st st' (r : GenericResponse) :
  call_single_request request reply now finished st = (st', Ok r) <->
  exists status response content usage p c t usage' cost,
    reply = Ok (status, response) /\
    py_in "error" response = Ok false /\
    status = 200 /\
    (choices <- py_getitem response "choices" ;;
     choice <- py_getindex choices 0 ;;
     message <- py_getitem choice "message" ;;
     py_getitem message "content") = Ok content /\
    py_getitem response "usage" = Ok usage /\
    py_getitem usage "prompt_tokens" = Ok p /\
    py_getitem usage "completion_tokens" = Ok c /\
    py_getitem usage "total_tokens" = Ok t /\
    int_field p = Some (prompt_tokens usage') /\
    int_field c = Some (completion_tokens usage') /\
    int_field t = Some (total_tokens usage') /\
    completion_cost response = Ok cost /\
    GenericResponse_valid r = true /\
    st' = st /\
    r = {| response_message := content;
           response_errors := None;
           raw_request := api_specific_request request;
           raw_response := response;
           generic_request := api_generic_request request;
           created_at := api_created_at request;
           finished_at := finished;
           token_usage := Some usage';
           response_cost := Some cost |}.
Proof.
  forget_hooks.
  split.
  - run_call.
    destruct reply as [[status response]|e]; cbn [fst snd]; [|discriminate].
    destruct (py_in "error" response) as [[|]|e] eqn:Hin; cbn [fst snd];
      [| |discriminate].
    { repeat step_result; try discriminate.
      all: destruct (Py.contains "rate limit" _); discriminate. }
    destruct (status =? 200) eqn:Hstatus; cbn [negb fst snd]; [|discriminate].
    apply Z.eqb_eq in Hstatus.
    destruct (choices <- py_getitem response "choices" ;;
              choice <- py_getindex choices 0 ;;
              message <- py_getitem choice "message" ;;
              py_getitem message "content") as [content|e] eqn:Hcontent;
      cbn [fst snd]; [|discriminate].
    destruct (py_getitem response "usage") as [usage|e] eqn:Husage;
      cbn [fst snd bind]; [|discriminate].
    destruct (py_getitem usage "prompt_tokens") as [p|e] eqn:Hp;
      cbn [fst snd bind]; [|discriminate].
    destruct (py_getitem usage "completion_tokens") as [c|e] eqn:Hc;
      cbn [fst snd bind]; [|discriminate].
    destruct (py_getitem usage "total_tokens") as [t|e] eqn:Ht;
      cbn [fst snd bind]; [|discriminate].
    unfold TokenUsage_init.
    destruct (int_field p) as [p'|] eqn:Hp'; cbn [of_option bind]; [|discriminate].
    destruct (int_field c) as [c'|] eqn:Hc'; cbn [of_option bind]; [|discriminate].
    destruct (int_field t) as [t'|] eqn:Ht'; cbn [of_option bind]; [|discriminate].
    destruct (completion_cost response) as [cost|e] eqn:Hcost;
      cbn [fst snd]; [|discriminate].
    unfold GenericResponse_init.
    match goal with
    | |- context [GenericResponse_valid ?x] =>
        destruct (GenericResponse_valid x) eqn:Hvalid; [|discriminate]
    end.
    intros Heq; injection Heq as <- <-.
    exists status, response, content, usage, p, c, t,
      {| prompt_tokens := p'; completion_tokens := c'; total_tokens := t' |},
      cost.
    cbn [prompt_tokens completion_tokens total_tokens].
    repeat split; auto.
  - intros (status & response & content & usage & p & c & t & usage' & cost &
            -> & Hin & -> & Hcontent & Husage & Hp & Hc & Ht & Hp' & Hc' &
            Ht' & Hcost & Hvalid & -> & Hr).
    run_call. rewrite Hin; cbn [fst snd Z.eqb negb Pos.eqb].
    rewrite Hcontent; cbn [fst snd].
    rewrite Husage; cbn [fst snd bind].
    rewrite Hp, Hc, Ht; cbn [fst snd bind].
    unfold TokenUsage_init. rewrite Hp', Hc', Ht'; cbn [of_option bind fst snd].
    rewrite Hcost; cbn [fst snd].
    unfold GenericResponse_init.
    destruct usage' as [p' c' t']; cbn [prompt_tokens completion_tokens total_tokens].
    rewrite <- Hr, Hvalid. reflexivity.
Qed.

(** ** [process_requests_from_file] *)

Ltac run_m := unfold mbind, lift, modify, ret, get; cbn [fst snd].

(** A line of the log, resp. of the request file, that validates. *)
Local Abbreviation logged_as :=
  (fun (line : string) (response : GenericResponse) =>
     parse_response line = Some response).
Local Abbreviation row_of :=
  (fun (line : string) (row : GenericRequest) => parse_request line = Some row).

Lemma build_requests_spec lines rows (completed : gset Z) acc :
  Forall2 row_of lines rows ->
  exists requests,
    build_requests lines completed acc = Ok (acc ++ requests) /\
    map api_generic_request requests
      = filter (fun row => original_row_idx row ∉ completed) rows /\
    Forall (fun a => task_id a = original_row_idx (api_generic_request a))
      requests.
Proof.
  forget_hooks.
  intros Hrows; revert acc.
  induction Hrows as [|line row lines rows Hline _ IH]; intros acc.
  - exists []. rewrite app_nil_r. repeat split; constructor.
  - cbn [build_requests]. rewrite Hline. cbn [of_option bind].
    case_bool_decide as Hin.
    + match goal with
      | |- context [build_requests _ _ (acc ++ [?a])] => set (new := a)
      end.
      destruct (IH (acc ++ [new])) as (requests & Hbuild & Hmap & Hids).
      exists (new :: requests). rewrite Hbuild, <- app_assoc.
      repeat split; [|constructor; [reflexivity|exact Hids]].
      rewrite filter_cons_True by exact Hin.
      cbn [map]. now rewrite Hmap.
    + destruct (IH acc) as (requests & Hbuild & Hmap & Hids).
      exists requests. rewrite filter_cons_False by (intros Hnot; exact (Hnot Hin)).
      auto.
Qed.

Lemma scan_no_retry_spec lines logged sc :
  Forall2 logged_as lines logged ->
  exists sc',
    scan_no_retry lines sc = (sc', Ok tt) /\
    completed_request_ids sc'
      = completed_request_ids sc ∪ list_to_set (map response_row logged).
Proof.
  forget_hooks.
  intros Hlog; revert sc.
  induction Hlog as [|line r lines logged Hline _ IH]; intros sc.
  - exists sc. split; [reflexivity|]. cbn. set_solver.
  - cbn [scan_no_retry]. run_m. rewrite Hline. cbn [of_option].
    destruct (IH (no_retry_step r sc)) as (sc' & -> & Hc).
    exists sc'. split; [reflexivity|]. rewrite Hc.
    unfold no_retry_step, response_row.
    destruct (truthy (response_errors r)); cbn; set_solver.
Qed.

(** What the [resume] loop keeps: exactly the lines whose response has a
    message, whatever its [response_errors]. *)
Lemma scan_retry_spec lines logged sc :
  Forall2 logged_as lines logged ->
  let kept :=
    List.filter (fun lr => negb (is_None (response_message (snd lr))))
      (zip lines logged) in
  exists sc',
    scan_retry lines sc = (sc', Ok tt) /\
    output_file sc' = output_file sc ++ map fst kept /\
    completed_request_ids sc'
      = completed_request_ids sc
        ∪ list_to_set (map (fun lr => response_row (snd lr)) kept).
Proof.
  forget_hooks.
  intros Hlog; revert sc.
  induction Hlog as [|line r lines logged Hline _ IH]; intros sc kept.
  - exists sc. subst kept; cbn. rewrite app_nil_r. split; [reflexivity|].
    split; [reflexivity|set_solver].
  - cbn [scan_retry]. run_m. rewrite Hline. cbn [of_option].
    destruct (IH (retry_step line r sc)) as (sc' & -> & Hout & Hc).
    exists sc'. split; [reflexivity|]. rewrite Hout, Hc.
    subst kept. cbn [zip zip_with List.filter snd].
    unfold retry_step, response_row.
    destruct (truthy (response_errors r));
      destruct (is_None (response_message r)); cbn;
      rewrite <- ?app_assoc; (split; [reflexivity|set_solver]).
Qed.

Lemma run_remaining_spec has_model_class req save (completed : gset Z)
    (w : World) req_lines rows :
  files w !! req = Some req_lines ->
  Forall2 row_of req_lines rows ->
  (has_model_class = false -> load_offline_model = Ok tt) ->
  exists requests,
    map api_generic_request requests
      = filter (fun row => original_row_idx row ∉ completed) rows /\
    Forall (fun a => task_id a = original_row_idx (api_generic_request a))
      requests /\
    run_remaining has_model_class req save completed w
    = match process_requests requests with
      | Ok responses =>
          ({| files := <[save := default [] (files w !! save)
                                 ++ map dump_response responses]> (files w);
              calls := calls w ++ hook_calls has_model_class requests |},
           Ok tt)
      | Raise e =>
          ({| files := files w;
              calls := calls w ++ hook_calls has_model_class requests |},
           Raise e)
      end.
Proof.
  forget_hooks.
  intros Hreq Hrows Hload.
  destruct (build_requests_spec req_lines rows completed [] Hrows)
    as (requests & Hbuild & Hmap & Hids).
  exists requests. split; [exact Hmap|]. split; [exact Hids|].
  unfold run_remaining, read_lines, append_lines, hook_calls.
  destruct has_model_class; run_m.
  - rewrite Hreq; cbn [of_option fst snd]. rewrite Hbuild; cbn [app].
    destruct (process_requests requests); reflexivity.
  - rewrite Hload by reflexivity. cbn [log_call files calls].
    rewrite Hreq; cbn [of_option fst snd]. rewrite Hbuild; cbn [app].
    destruct (process_requests requests);
      unfold log_call, set_files; cbn [files calls];
      rewrite <- app_assoc; reflexivity.
Qed.

(** [run_remaining] only ever appends to the save file. *)
Lemma run_remaining_appends has_model_class req save (completed : gset Z)
    (w : World) :
  let w' := fst (run_remaining has_model_class req save completed w) in
  files w' = files w \/
  exists new, files w' = <[save := default [] (files w !! save) ++ new]> (files w).
Proof.
  forget_hooks.
  unfold run_remaining, read_lines, append_lines.
  destruct has_model_class; run_m;
    repeat (match goal with
            | |- context [match ?x with Ok _ => _ | Raise _ => _ end] =>
                destruct x; cbn [fst snd log_call set_files files calls]
            end);
    try (now left); right; eexists; reflexivity.
Qed.

Lemma lower_is_y_or_empty (u : string) :
  Py.in_list (Py.lower u) ["y"; ""] = true <-> u = "y" \/ u = "Y" \/ u = "".
Proof.
  forget_hooks.
  split.
  - destruct u as [|c [|c' u']]; [tauto| |].
    + destruct c as [[] [] [] [] [] [] [] []]; cbn; try discriminate; tauto.
    + unfold Py.in_list; cbn [Py.lower existsb].
      rewrite orb_false_r.
      cbn [String.eqb].
      destruct (Ascii.eqb (Py.lower_ascii c) "y"); discriminate.
  - intros [->|[->| ->]]; reflexivity.
Qed.

Lemma filter_not_in_empty (rows : list GenericRequest) (completed : gset Z) :
  completed = ∅ ->
  filter (fun row => original_row_idx row ∉ completed) rows = rows.
Proof.
  forget_hooks.
  intros ->. induction rows as [|row rows IH]; [reflexivity|].
  rewrite filter_cons_True by set_solver. now rewrite IH.
Qed.

(** The [resume] branch: the log is rewritten to the lines whose response
    has a message, and exactly their rows are marked completed. *)
Lemma resume_state_retry user_input save resume_no_retry (w : World)
    log_lines logged :
  files w !! save = Some log_lines ->
  Forall2 logged_as log_lines logged ->
  let kept :=
    List.filter (fun lr => negb (is_None (response_message (snd lr))))
      (zip log_lines logged) in
  let temp := (save ++ ".temp")%string in
  resume_state user_input save true resume_no_retry w
  = ({| files := <[save := map fst kept]>
                   (delete temp (<[temp := map fst kept]> (files w)));
        calls := calls w |},
     Ok (Some (list_to_set (map (fun lr => response_row (snd lr)) kept)))).
Proof.
  forget_hooks.
  intros Hsave Hlog kept temp.
  destruct (scan_retry_spec log_lines logged scan_start Hlog)
    as (sc & Hscan & Hout & Hc).
  fold kept in Hout, Hc. cbn [scan_start output_file completed_request_ids app] in *.
  unfold resume_state. run_m. rewrite Hsave. rewrite Hscan. run_m.
  unfold os_replace. run_m. fold temp. cbn [set_files files calls].
  rewrite lookup_insert_eq. cbn [fst snd set_files files calls].
  rewrite Hout, Hc, union_empty_l_L. reflexivity.
Qed.

(** X21: with [resume=False] and [resume_no_retry=True] on an existing
    log, the row of every logged response, failed or not, is in the
    completed set; the log is left as it is, the requests handed to
    [process_requests] are exactly the rows of the request file that do
    not occur in the log, and their responses are appended to the log. *)
Theorem process_requests_from_file_resume_no_retry
    has_model_class user_input req save (w : World)
    log_lines logged req_lines rows :
  files w !! save = Some log_lines ->
  Forall2 logged_as log_lines logged ->
  files w !! req = Some req_lines ->
  Forall2 row_of req_lines rows ->
  (has_model_class = false -> load_offline_model = Ok tt) ->
  exists requests,
    resume_state user_input save false true w
      = (w, Ok (Some (list_to_set (map response_row logged)))) /\
    map api_generic_request requests
      = filter (fun row => original_row_idx row ∉ map response_row logged) rows /\
    Forall (fun a => task_id a = original_row_idx (api_generic_request a))
      requests /\
    process_requests_from_file has_model_class user_input req save false true w
    = match process_requests requests with
      | Ok responses =>
          ({| files := <[save := log_lines ++ map dump_response responses]>
                         (files w);
              calls := calls w ++ hook_calls has_model_class requests |},
           Ok tt)
      | Raise e =>
          ({| files := files w;
              calls := calls w ++ hook_calls has_model_class requests |},
           Raise e)
      end.
Proof.
  forget_hooks.
  intros Hsave Hlog Hreq Hrows Hload.
  destruct (scan_no_retry_spec log_lines logged scan_start Hlog)
    as (sc & Hscan & Hc).
  cbn [scan_start completed_request_ids] in Hc. rewrite union_empty_l_L in Hc.
  assert (Hstate : resume_state user_input save false true w
                   = (w, Ok (Some (list_to_set (map response_row logged))))).
  { unfold resume_state. run_m. rewrite Hsave, Hscan. run_m. now rewrite Hc. }
  destruct (run_remaining_spec has_model_class req save
              (list_to_set (map response_row logged)) w req_lines rows
              Hreq Hrows Hload) as (requests & Hmap & Hids & Hrun).
  exists requests. split; [exact Hstate|]. split; [|split; [exact Hids|]].
  - rewrite Hmap. apply list_filter_iff. intros row.
    now rewrite elem_of_list_to_set.
  - unfold process_requests_from_file, mbind. rewrite Hstate, Hrun, Hsave.
    reflexivity.
Qed.

(** C6: when the save file exists, neither flag is set and the answer at
    the prompt is none of ["y"], ["Y"] and the empty string, the function
    returns at once: no hook is called and no file is touched. *)
Theorem process_requests_from_file_declined
    has_model_class u req save (w : World) lines :
  files w !! save = Some lines ->
  u <> "y" -> u <> "Y" -> u <> "" ->
  process_requests_from_file has_model_class (Some u) req save false false w
  = (w, Ok tt).
Proof.
  forget_hooks.
  intros Hsave Hy HY Hempty.
  assert (Hno : Py.in_list (Py.lower u) ["y"; ""] = false).
  { destruct (Py.in_list (Py.lower u) ["y"; ""]) eqn:E; [|reflexivity].
    apply lower_is_y_or_empty in E. tauto. }
  unfold process_requests_from_file, resume_state. run_m.
  rewrite Hsave. cbn [of_option]. rewrite Hno. reflexivity.
Qed.

(** C9: when the save file exists, neither flag is set and the answer at
    the prompt is ["y"], ["Y"] or empty, the completed set is empty and
    the save file is only ever appended to: whatever happens its old
    lines stay in place at the head of the file and no other file changes,
    and when the request file validates every row is handed to
    [process_requests] and the responses are written after the old
    lines. *)
Theorem process_requests_from_file_confirmed_appends
    has_model_class u req save (w : World) old :
  files w !! save = Some old ->
  u = "y" \/ u = "Y" \/ u = "" ->
  let out :=
    process_requests_from_file has_model_class (Some u) req save false false w in
  resume_state (Some u) save false false w = (w, Ok (Some ∅)) /\
  (exists new, files (fst out) !! save = Some (old ++ new)) /\
  (forall path, path <> save -> files (fst out) !! path = files w !! path) /\
  (forall req_lines rows,
     files w !! req = Some req_lines ->
     Forall2 row_of req_lines rows ->
     (has_model_class = false -> load_offline_model = Ok tt) ->
     exists requests,
       map api_generic_request requests = rows /\
       out = match process_requests requests with
             | Ok responses =>
                 ({| files := <[save := old ++ map dump_response responses]>
                                (files w);
                     calls := calls w ++ hook_calls has_model_class requests |},
                  Ok tt)
             | Raise e =>
                 ({| files := files w;
                     calls := calls w ++ hook_calls has_model_class requests |},
                  Raise e)
             end).
Proof.
  forget_hooks.
  intros Hsave Hu out.
  apply lower_is_y_or_empty in Hu.
  assert (Hstate : resume_state (Some u) save false false w = (w, Ok (Some ∅))).
  { unfold resume_state. run_m. rewrite Hsave. cbn [of_option]. now rewrite Hu. }
  assert (Hout : out = run_remaining has_model_class req save ∅ w).
  { subst out. unfold process_requests_from_file, mbind. now rewrite Hstate. }
  split; [exact Hstate|].
  pose proof (run_remaining_appends has_model_class req save ∅ w) as Happ.
  cbv zeta in Happ. rewrite <- Hout, Hsave in Happ. cbn [default] in Happ.
  split; [|split].
  - destruct Happ as [-> | [new ->]].
    + exists []. now rewrite app_nil_r.
    + exists new. apply lookup_insert_eq.
  - intros path Hpath. destruct Happ as [-> | [new ->]]; [reflexivity|].
    now apply lookup_insert_ne.
  - intros req_lines rows Hreq Hrows Hload.
    destruct (run_remaining_spec has_model_class req save ∅ w req_lines rows
                Hreq Hrows Hload) as (requests & Hmap & _ & Hrun).
    exists requests. rewrite (filter_not_in_empty rows ∅ eq_refl) in Hmap.
    split; [exact Hmap|]. rewrite Hout, Hrun, Hsave. reflexivity.
Qed.

(** * Further properties of the processors *)

(** ** More on [call_single_request] *)

(** X8: a reply without an ["error"] key and with a status other than 200
    raises the status error and leaves the tracker alone: no counter records
    it in this function. *)
Theorem call_single_request_status_error
    request status response now finished st :
  py_in "error" response = Ok false ->
  status <> 200 ->
  call_single_request request (Ok (status, response)) now finished st
  = (st, Raise (StatusError status response)).
Proof.
  forget_hooks.
  intros Hin Hstatus. run_call. rewrite Hin. cbn [fst snd].
  apply Z.eqb_neq in Hstatus. rewrite Hstatus. reflexivity.
Qed.

(** X9: when the ["error"] entry of the reply is not an object (a plain
    string, say), the call raises [AttributeError] after counting one API
    error: the rate-limit test is never reached, whatever the text says. *)
Theorem call_single_request_malformed_error
    request status kvs error now finished st :
  assoc "error" kvs = Some error ->
  (forall error_kvs, error <> JObj error_kvs) ->
  call_single_request request (Ok (status, JObj kvs)) now finished st
  = (add_api_errors 1 st, Raise AttributeError).
Proof.
  forget_hooks.
  intros Herror Hshape. run_call. cbn [py_in py_getitem]. rewrite Herror. red_py.
  destruct error as [| | | | |error_kvs]; try reflexivity.
  now contradiction (Hshape error_kvs).
Qed.

(** ** More on [estimate_total_tokens] *)

Lemma name_keys_count (message : gmap string json) :
  Z.of_nat (List.length (List.filter is_name (map_to_list message)))
  = match message !! "name" with Some _ => 1 | None => 0 end.
Proof.
  forget_hooks.
  pose proof (name_keys_le_1 (map_to_list message)
                (NoDup_fst_map_to_list message)) as Hle.
  destruct (message !! "name") as [v|] eqn:Hname.
  - apply elem_of_map_to_list in Hname.
    assert (Hin : In ("name", v) (List.filter is_name (map_to_list message))).
    { apply filter_In. split; [now apply list_elem_of_In | reflexivity]. }
    destruct (List.filter is_name (map_to_list message)); [contradiction|].
    cbn [List.length] in *. lia.
  - destruct (List.filter is_name (map_to_list message)) as [|[k v] l] eqn:E;
      [reflexivity|exfalso].
    assert (Hin : In (k, v) (List.filter is_name (map_to_list message))).
    { rewrite E. now left. }
    apply filter_In in Hin as [Hin Hk]. unfold is_name in Hk; cbn in Hk.
    apply String.eqb_eq in Hk. subst k.
    apply list_elem_of_In, elem_of_map_to_list in Hin. congruence.
Qed.

(** X10: the estimate is the two priming tokens, the output estimate and,
    for each message, four tokens plus the tokens of its values, less one
    when the message has a ["name"] key. *)
Theorem estimate_total_tokens_exact (messages : list (gmap string json)) :
  estimate_total_tokens messages
  = 2 + estimate_output_tokens
    + foldr Z.add 0
        (map (fun message =>
                4 + message_value_tokens message
                - match message !! "name" with Some _ => 1 | None => 0 end)
           messages).
Proof.
  forget_hooks.
  unfold estimate_total_tokens.
  enough (H : forall acc,
             fold_left count_message messages acc
             = acc + foldr Z.add 0
                 (map (fun message =>
                         4 + message_value_tokens message
                         - match message !! "name" with Some _ => 1 | None => 0 end)
                    messages)) by (rewrite H; lia).
  induction messages as [|m messages IH]; intros acc; cbn [fold_left map foldr].
  - lia.
  - rewrite IH. unfold count_message at 1. rewrite fold_count_item.
    rewrite name_keys_count. unfold message_value_tokens. lia.
Qed.

(** ** More on [process_requests_from_file] *)

Lemma string_length_app (a b : string) :
  String.length (a ++ b) = (String.length a + String.length b)%nat.
Proof.
  forget_hooks. induction a as [|c a IH]; simpl; [reflexivity | congruence].
Qed.

Lemma scan_retry_app (a b : list string) (sc : Scan) :
  scan_retry (a ++ b) sc
  = match scan_retry a sc with
    | (sc', Ok _) => scan_retry b sc'
    | (sc', Raise e) => (sc', Raise e)
    end.
Proof.
  forget_hooks.
  revert sc; induction a as [|line a IH]; intros sc; [reflexivity|].
  cbn [app scan_retry]. run_m.
  destruct (parse_response line) as [r|]; cbn [of_option]; [apply IH|reflexivity].
Qed.

Lemma scan_no_retry_app (a b : list string) (sc : Scan) :
  scan_no_retry (a ++ b) sc
  = match scan_no_retry a sc with
    | (sc', Ok _) => scan_no_retry b sc'
    | (sc', Raise e) => (sc', Raise e)
    end.
Proof.
  forget_hooks.
  revert sc; induction a as [|line a IH]; intros sc; [reflexivity|].
  cbn [app scan_no_retry]. run_m.
  destruct (parse_response line) as [r|]; cbn [of_option]; [apply IH|reflexivity].
Qed.

(** X11: with [resume=True] on an existing log that validates, the log is
    rewritten to the lines whose response has a message, the temporary file
    is gone, the requests handed to [process_requests] are exactly the rows
    of the request file that none of the kept responses belongs to, and
    their responses are appended to the rewritten log. *)
Theorem process_requests_from_file_resume_retry
    has_model_class user_input resume_no_retry req save (w : World)
    log_lines logged req_lines rows :
  files w !! save = Some log_lines ->
  Forall2 logged_as log_lines logged ->
  req <> save ->
  req <> (save ++ ".temp")%string ->
  files w !! req = Some req_lines ->
  Forall2 row_of req_lines rows ->
  (has_model_class = false -> load_offline_model = Ok tt) ->
  let kept :=
    List.filter (fun lr => negb (is_None (response_message (snd lr))))
      (zip log_lines logged) in
  let compacted :=
    <[save := map fst kept]>
      (delete (save ++ ".temp")%string
         (<[(save ++ ".temp")%string := map fst kept]> (files w))) in
  exists requests,
    map api_generic_request requests
    = filter (fun row => original_row_idx row
                         ∉ map (fun lr => response_row (snd lr)) kept) rows /\
    compacted !! (save ++ ".temp")%string = None /\
    process_requests_from_file has_model_class user_input req save true
      resume_no_retry w
    = match process_requests requests with
      | Ok responses =>
          ({| files := <[save := map fst kept ++ map dump_response responses]>
                         compacted;
              calls := calls w ++ hook_calls has_model_class requests |},
           Ok tt)
      | Raise e =>
          ({| files := compacted;
              calls := calls w ++ hook_calls has_model_class requests |},
           Raise e)
      end.
Proof.
  forget_hooks.
  intros Hsave Hlog Hneq Hneq' Hreq Hrows Hload kept compacted.
  pose proof (resume_state_retry user_input save resume_no_retry w
                log_lines logged Hsave Hlog) as Hstate.
  cbv zeta in Hstate. fold kept in Hstate. fold compacted in Hstate.
  set (w' := {| files := compacted; calls := calls w |}) in *.
  assert (Hreq' : files w' !! req = Some req_lines).
  { subst w' compacted. cbn [files].
    rewrite lookup_insert_ne by congruence.
    rewrite lookup_delete_ne by congruence.
    rewrite lookup_insert_ne by congruence. exact Hreq. }
  destruct (run_remaining_spec has_model_class req save
              (list_to_set (map (fun lr => response_row (snd lr)) kept))
              w' req_lines rows Hreq' Hrows Hload)
    as (requests & Hmap & _ & Hrun).
  exists requests. split; [|split].
  - rewrite Hmap. apply list_filter_iff. intros row.
    now rewrite elem_of_list_to_set.
  - subst compacted. rewrite lookup_insert_ne.
    + apply lookup_delete_eq.
    + intros Heq. apply (f_equal String.length) in Heq.
      rewrite string_length_app in Heq. cbn in Heq. lia.
  - unfold process_requests_from_file, mbind. rewrite Hstate, Hrun.
    subst w'. cbn [files calls]. subst compacted.
    rewrite lookup_insert_eq. cbn [default].
    destruct (process_requests requests); reflexivity.
Qed.

(** X12: when a line of the log does not validate, resuming raises
    [ValidationError] before anything is submitted.  With [resume=True] the
    save file itself is untouched and the temporary file is left behind,
    holding the lines kept up to the bad one; with [resume_no_retry=True]
    alone nothing changes at all. *)
Theorem process_requests_from_file_corrupt_log
    has_model_class user_input resume_no_retry req save (w : World)
    good logged bad rest :
  files w !! save = Some (good ++ bad :: rest) ->
  Forall2 logged_as good logged ->
  parse_response bad = None ->
  let kept :=
    List.filter (fun lr => negb (is_None (response_message (snd lr))))
      (zip good logged) in
  process_requests_from_file has_model_class user_input req save true
    resume_no_retry w
  = ({| files := <[(save ++ ".temp")%string := map fst kept]> (files w);
        calls := calls w |},
     Raise ValidationError) /\
  <[(save ++ ".temp")%string := map fst kept]> (files w) !! save
  = Some (good ++ bad :: rest) /\
  process_requests_from_file has_model_class user_input req save false true w
  = (w, Raise ValidationError).
Proof.
  forget_hooks.
  intros Hsave Hgood Hbad kept. split; [|split].
  - destruct (scan_retry_spec good logged scan_start Hgood)
      as (sc & Hscan & Hout & _).
    fold kept in Hout. cbn [scan_start output_file app] in Hout.
    unfold process_requests_from_file, resume_state. run_m.
    rewrite Hsave, scan_retry_app, Hscan. cbn [scan_retry]. run_m.
    rewrite Hbad. cbn [of_option set_files files calls]. now rewrite Hout.
  - rewrite lookup_insert_ne; [exact Hsave|].
    intros Heq. apply (f_equal String.length) in Heq.
    rewrite string_length_app in Heq. cbn in Heq. lia.
  - destruct (scan_no_retry_spec good logged scan_start Hgood)
      as (sc & Hscan & _).
    unfold process_requests_from_file, resume_state. run_m.
    rewrite Hsave, scan_no_retry_app, Hscan. cbn [scan_no_retry]. run_m.
    rewrite Hbad. reflexivity.
Qed.

(** X13: when there is no save file, the flags and the prompt play no
    part: every row of the request file is handed to [process_requests] and
    the save file is created holding just the responses. *)
Theorem process_requests_from_file_fresh
    has_model_class user_input resume resume_no_retry req save (w : World)
    req_lines rows :
  files w !! save = None ->
  files w !! req = Some req_lines ->
  Forall2 row_of req_lines rows ->
  (has_model_class = false -> load_offline_model = Ok tt) ->
  exists requests,
    map api_generic_request requests = rows /\
    process_requests_from_file has_model_class user_input req save resume
      resume_no_retry w
    = match process_requests requests with
      | Ok responses =>
          ({| files := <[save := map dump_response responses]> (files w);
              calls := calls w ++ hook_calls has_model_class requests |},
           Ok tt)
      | Raise e =>
          ({| files := files w;
              calls := calls w ++ hook_calls has_model_class requests |},
           Raise e)
      end.
Proof.
  forget_hooks.
  intros Hsave Hreq Hrows Hload.
  destruct (run_remaining_spec has_model_class req save ∅ w req_lines rows
              Hreq Hrows Hload) as (requests & Hmap & _ & Hrun).
  exists requests. rewrite (filter_not_in_empty rows ∅ eq_refl) in Hmap.
  split; [exact Hmap|].
  unfold process_requests_from_file, resume_state. run_m.
  rewrite Hsave. cbn [fst snd]. rewrite Hrun, Hsave. reflexivity.
Qed.

(** X14: when the request file is missing (and there is no save file), the
    run raises [FileNotFoundError] without calling [process_requests] and
    without creating the save file; a model not loaded yet has been loaded
    by then. *)
Theorem process_requests_from_file_missing_requests
    has_model_class user_input resume resume_no_retry req save (w : World) :
  files w !! save = None ->
  files w !! req = None ->
  (has_model_class = false -> load_offline_model = Ok tt) ->
  process_requests_from_file has_model_class user_input req save resume
    resume_no_retry w
  = ({| files := files w;
        calls := calls w ++ (if has_model_class then [] else [LoadOfflineModel]) |},
     Raise FileNotFoundError).
Proof.
  forget_hooks.
  intros Hsave Hreq Hload.
  unfold process_requests_from_file, resume_state. run_m.
  rewrite Hsave. cbn [fst snd].
  unfold run_remaining, read_lines. destruct has_model_class; run_m.
  - rewrite Hreq. cbn [of_option]. rewrite app_nil_r. now destruct w.
  - rewrite Hload by reflexivity. cbn [log_call files calls].
    rewrite Hreq. reflexivity.
Qed.

(** X15: the requests are built in the order of the request file, one for
    every line whose row is not completed (a row listed twice is built
    twice); each has the row's index as [task_id], the API-specific form of
    the row, an empty result list and the time of its creation. *)
Theorem build_requests_in_order lines rows (completed : gset Z) :
  Forall2 row_of lines rows ->
  build_requests lines completed []
  = Ok (imap api_request_of
          (filter (fun row => original_row_idx row ∉ completed) rows)).
Proof.
  forget_hooks.
  intros Hrows.
  enough (H : forall acc,
             build_requests lines completed acc
             = Ok (acc ++ imap (fun n => api_request_of (List.length acc + n))
                            (filter (fun row => original_row_idx row ∉ completed)
                               rows))) by exact (H []).
  induction Hrows as [|line row lines rows Hline _ IH]; intros acc.
  - cbn. now rewrite app_nil_r.
  - cbn [build_requests]. rewrite Hline. cbn [of_option bind].
    case_bool_decide as Hin.
    + rewrite IH, filter_cons_True by exact Hin.
      rewrite imap_cons, <- app_assoc. cbn [app]. do 3 f_equal.
      * unfold api_request_of. now rewrite Nat.add_0_r.
      * apply imap_ext. intros i x _. cbn.
        rewrite length_app. cbn [List.length]. f_equal. lia.
    + rewrite IH, filter_cons_False by (intros Hnot; exact (Hnot Hin)).
      reflexivity.
Qed.

(** ** [requests_to_responses] *)

Lemma resume_state_calls user_input save resume resume_no_retry (w : World) :
  calls (fst (resume_state user_input save resume resume_no_retry w)) = calls w.
Proof.
  forget_hooks.
  unfold resume_state. run_m.
  destruct (files w !! save) as [lines|]; [|reflexivity].
  destruct resume.
  - destruct (scan_retry lines scan_start) as [sc [[]|e]]; run_m; [|reflexivity].
    unfold os_replace. run_m. cbn [set_files files calls].
    rewrite lookup_insert_eq. reflexivity.
  - destruct resume_no_retry.
    + destruct (scan_no_retry lines scan_start) as [sc [[]|e]]; reflexivity.
    + destruct user_input as [u|]; cbn [of_option]; [|reflexivity].
      destruct (negb (Py.in_list (Py.lower u) ["y"; ""])); reflexivity.
Qed.

Lemma model_loads_app (w : World) (cs : list hook_call) :
  model_loads {| files := files w; calls := calls w ++ cs |}
  = (model_loads w
     + model_loads {| files := files w; calls := cs |})%nat.
Proof.
  forget_hooks.
  unfold model_loads. cbn [calls]. now rewrite List.filter_app, length_app.
Qed.

Lemma run_remaining_loads has_model_class req save (completed : gset Z)
    (w : World) :
  model_loads (fst (run_remaining has_model_class req save completed w))
  = (model_loads w + if has_model_class then 0 else 1)%nat.
Proof.
  forget_hooks.
  unfold run_remaining, read_lines, append_lines.
  destruct has_model_class; run_m;
    repeat (match goal with
            | |- context [match ?x with Ok _ => _ | Raise _ => _ end] =>
                destruct x; cbn [fst snd log_call set_files files calls]
            end);
    unfold model_loads, log_call, set_files; cbn [fst snd files calls];
    rewrite ?List.filter_app, ?length_app; cbn [List.filter List.length]; lia.
Qed.

Lemma process_requests_from_file_loads
    has_model_class user_input req save resume resume_no_retry (w : World) :
  let w' := fst (process_requests_from_file has_model_class user_input req save
                   resume resume_no_retry w) in
  (model_loads w <= model_loads w'
   <= model_loads w + if has_model_class then 0 else 1)%nat.
Proof.
  forget_hooks.
  intros w'; subst w'. unfold process_requests_from_file, mbind.
  pose proof (resume_state_calls user_input save resume resume_no_retry w) as Hc.
  destruct (resume_state user_input save resume resume_no_retry w)
    as [w1 [[completed|]|e]]; cbn [fst snd] in *.
  - rewrite run_remaining_loads. unfold model_loads. rewrite Hc.
    destruct has_model_class; lia.
  - unfold ret, model_loads. cbn [fst]. rewrite Hc. lia.
  - unfold model_loads. rewrite Hc. lia.
Qed.

(** X16: when the hook [load_offline_model] sets [model_class], a batch of
    request files loads the model at most once, and not at all when it was
    loaded on entry. *)
Theorem requests_to_responses_loads_once
    has_model_class (generic_request_files : list string) (w : World) :
  let w' := fst (requests_to_responses true has_model_class
                   generic_request_files w) in
  (model_loads w <= model_loads w'
   <= model_loads w + if has_model_class then 0 else 1)%nat.
Proof.
  forget_hooks.
  revert has_model_class w.
  induction generic_request_files as [|request_file rest IH];
    intros has_model_class w; cbn [requests_to_responses].
  - cbn. lia.
  - unfold mbind.
    pose proof (process_requests_from_file_loads has_model_class None
                  request_file (response_file_of request_file) true false w)
      as Hstep.
    cbv zeta in Hstep.
    destruct (process_requests_from_file has_model_class None request_file
                (response_file_of request_file) true false w)
      as [w1 [[]|e]] eqn:Hrun; cbn [fst snd] in *.
    + specialize (IH (has_model_class || true) w1). cbv zeta in IH.
      rewrite orb_true_r in *. cbn in IH. lia.
    + exact Hstep.
Qed.

End Curator.

(** ** Strings *)

Lemma prefix_app (p s : string) : String.prefix p (p ++ s)%string = true.
Proof.
  induction p as [|c p IH]; simpl.
  - now destruct s.
  - destruct (ascii_dec c c) as [_|Hne]; [exact IH | now contradict Hne].
Qed.

Lemma contains_prefix (p s : string) : Py.contains p (p ++ s)%string = true.
Proof.
  pose proof (prefix_app p s) as H.
  destruct (p ++ s)%string; simpl in *; rewrite H; reflexivity.
Qed.

Lemma lower_app (a b : string) :
  Py.lower (a ++ b)%string = (Py.lower a ++ Py.lower b)%string.
Proof. induction a as [|c a IH]; simpl; [reflexivity | now rewrite IH]. Qed.

Lemma split_go_cons (sep : string) (skip : nat) (cur s : string) :
  exists piece rest, Py.split_go sep skip cur s = piece :: rest.
Proof.
  revert skip cur; induction s as [|c s IH]; intros skip cur.
  - simpl; eauto.
  - destruct skip as [|k]; cbn [Py.split_go]; [|apply IH].
    destruct (String.prefix sep (String c s)); [eauto | apply IH].
Qed.

Lemma split_prefix (c : ascii) (sep' s : string) :
  Py.split (String c sep') (String c sep' ++ s)%string
  = EmptyString :: Py.split_go (String c sep') (String.length sep') EmptyString
                     (sep' ++ s)%string.
Proof.
  unfold Py.split.
  change (String c sep' ++ s)%string with (String c (sep' ++ s)%string).
  cbn [Py.split_go].
  change (String c (sep' ++ s)%string) with (String c sep' ++ s)%string.
  rewrite prefix_app. reflexivity.
Qed.

(** ** [check_structured_output_support] *)

(** C10: a model name ["gpt-4o-mini-<date>"] never yields a boolean: the
    text after the prefix is handed to [strptime], and the function raises
    [ValueError] when that fails and [TypeError] (from calling the
    [datetime] module) when it succeeds; the undated names ["gpt-4o-mini"],
    ["gpt-4o"] and ["o1"] give [True]. *)
Theorem check_structured_output_support_dated_mini_raises
    (strptime : string -> option date) :
  (forall d : string,
     exists suffix : string,
       Py.index (Py.split "gpt-4o-mini-" (Py.lower ("gpt-4o-mini-" ++ d))) 1
         = Ok suffix /\
       check_structured_output_support strptime ("gpt-4o-mini-" ++ d)
         = match strptime suffix with
           | Some _ => Raise TypeError
           | None => Raise ValueError
           end) /\
  check_structured_output_support strptime "gpt-4o-mini" = Ok true /\
  check_structured_output_support strptime "gpt-4o" = Ok true /\
  check_structured_output_support strptime "o1" = Ok true.
Proof.
  split; [|repeat split; reflexivity].
  intros d.
  unfold check_structured_output_support.
  rewrite lower_app.
  change (Py.lower "gpt-4o-mini-") with "gpt-4o-mini-".
  rewrite contains_prefix.
  set (name := ("gpt-4o-mini-" ++ Py.lower d)%string).
  assert (Hne : String.eqb name "gpt-4o-mini" = false).
  { subst name. simpl. reflexivity. }
  rewrite Hne.
  destruct (split_go_cons "gpt-4o-mini-" 11 "" (("pt-4o-mini-" ++ Py.lower d)%string))
    as (piece & rest & Hsplit).
  assert (Hidx : Py.index (Py.split "gpt-4o-mini-" name) 1 = Ok piece).
  { subst name. rewrite split_prefix.
    change (String.length "pt-4o-mini-") with 11%nat.
    rewrite Hsplit. reflexivity. }
  exists piece. split; [exact Hidx|].
  rewrite Hidx. simpl. unfold strptime_ymd.
  destruct (strptime piece); reflexivity.
Qed.

(** The dated name of the first structured-output release, run with the
    sample [strptime]. *)
Example check_structured_output_support_2024_07_18 :
  check_structured_output_support Sample.strptime "gpt-4o-mini-2024-07-18"
    = Raise TypeError /\
  check_structured_output_support Sample.strptime "gpt-4o-2024-08-06" = Ok true /\
  check_structured_output_support Sample.strptime "gpt-4o-2024-05-13" = Ok false /\
  check_structured_output_support Sample.strptime "GPT-4o-mini-latest"
    = Raise ValueError.
Proof. repeat split; vm_compute; reflexivity. Qed.

(** C3 (as stated) fails: for a model with 4096 maximum tokens and no
    message the estimate is 1026, below the worst-case completion length
    alone. *)
Lemma estimate_total_tokens_below_worst_case :
  let max_tokens := 4096 in
  let estimate :=
    estimate_total_tokens "gpt-4o-mini" (fun _ => Some max_tokens)
      (fun _ => "") (fun _ => Some []) [] in
  estimate = 1026 /\
  ~ (payload_tokens (fun _ => "") (fun _ => Some []) [] + max_tokens <= estimate).
Proof. vm_compute. split; [reflexivity | intros H; apply H; reflexivity]. Qed.

(** ** Runs of [call_single_request] *)

(** C2 (as stated) fails: on a rate-limit reply the call takes
    [num_other_errors] from 0 to -1. *)
Lemma call_single_request_lowers_other_errors :
  let st' :=
    fst (call_single_request Sample.int_field Sample.completion_cost
           Sample.GenericResponse_valid Sample.api_request
           (Ok (429, Sample.rate_limit_body)) 5 6 Sample.tracker) in
  num_other_errors st' = -1 /\
  num_other_errors st' < num_other_errors Sample.tracker /\
  ~ Forall2 Z.le (counters Sample.tracker) (counters st').
Proof.
  vm_compute. split; [reflexivity|]. split; [reflexivity|].
  intros H. do 6 (apply Forall2_cons_1 in H as [_ H]).
  apply Forall2_cons_1 in H as [H _]. apply H. reflexivity.
Qed.

(** C7 at a rate-limit reply of the API. *)
Lemma call_single_request_rate_limit_witness :
  let out :=
    call_single_request Sample.int_field Sample.completion_cost
      Sample.GenericResponse_valid Sample.api_request
      (Ok (429, Sample.rate_limit_body)) 5 6 Sample.tracker in
  snd out = Raise (APIError (JObj Sample.rate_limit_error)) /\
  time_of_last_rate_limit_error (fst out) = 5 /\
  num_rate_limit_errors (fst out) = num_rate_limit_errors Sample.tracker + 1 /\
  num_api_errors (fst out) = num_api_errors Sample.tracker.
Proof.
  apply (call_single_request_rate_limit Sample.int_field Sample.completion_cost
           Sample.GenericResponse_valid Sample.api_request 429
           [("error", JObj Sample.rate_limit_error)] Sample.rate_limit_error
           "Rate limit reached for gpt-4o-mini" 5 6 Sample.tracker);
    reflexivity.
Defined.

(** C8 (as stated) fails: the reply [{}] with status 200 has no ["error"]
    key, yet the call raises [KeyError] instead of returning a response. *)
Lemma call_single_request_raises_without_error_key :
  py_in "error" Sample.empty_body = Ok false /\
  snd (call_single_request Sample.int_field Sample.completion_cost
         Sample.GenericResponse_valid Sample.api_request
         (Ok (200, Sample.empty_body)) 5 6 Sample.tracker)
  = Raise KeyError.
Proof. split; reflexivity. Qed.

(** C8 (amended) at a well-formed completion. *)
Lemma call_single_request_returns_iff_witness :
  call_single_request Sample.int_field Sample.completion_cost
    Sample.GenericResponse_valid Sample.api_request
    (Ok (200, Sample.ok_body)) 5 6 Sample.tracker
  = (Sample.tracker,
     Ok {| response_message := JStr "1";
           response_errors := None;
           raw_request := api_specific_request Sample.api_request;
           raw_response := Sample.ok_body;
           generic_request := Sample.row 7;
           created_at := 100;
           finished_at := 6;
           token_usage := Some {| prompt_tokens := 12; completion_tokens := 1;
                                  total_tokens := 13 |};
           response_cost := Some 3 |}).
Proof.
  apply (proj2 (call_single_request_returns_iff Sample.int_field
                  Sample.completion_cost Sample.GenericResponse_valid
                  Sample.api_request (Ok (200, Sample.ok_body)) 5 6
                  Sample.tracker Sample.tracker _)).
  exists 200, Sample.ok_body, (JStr "1"), Sample.usage_body,
    (JNum 12), (JNum 1), (JNum 13),
    {| prompt_tokens := 12; completion_tokens := 1; total_tokens := 13 |}, 3.
  repeat split; reflexivity.
Defined.

(** ** Runs of [process_requests_from_file]

    The sample log holds a completed row 1, a row 2 that has both a message
    and errors, and a failed row 0; the request file has rows 0 to 3. *)

(** C1 on the sample log: with [resume=True] the response of row 2, which
    is failed (its [response_errors] is non-empty), stays in the rewritten
    log and row 2 is not submitted again; only rows 0 and 3 are. *)
Lemma resume_keeps_response_with_errors :
  let out :=
    process_requests_from_file Sample.parse_response Sample.parse_request
      Sample.dump_response Sample.create_api_specific_request (Ok tt)
      Sample.process_requests Sample.clock true None
      Sample.requests_file Sample.responses_file true false Sample.world in
  option_map failed (Sample.parse_response "partial 2") = Some true /\
  option_map response_row (Sample.parse_response "partial 2") = Some 2 /\
  files (fst (resume_state Sample.parse_response None Sample.responses_file
                true false Sample.world)) !! Sample.responses_file
  = Some ["done 1"; "partial 2"] /\
  submitted_rows (fst out) = [0; 3] /\
  files (fst out) !! Sample.responses_file
  = Some ["done 1"; "partial 2"; "done 0"; "done 3"].
Proof. vm_compute. repeat split; reflexivity. Qed.

(** C5 at the failing input: with [resume_no_retry=True] and [resume=True]
    the [resume] branch runs all the same, so the failed row 0 of the log
    is dropped from the log and submitted again, where the docstring of
    [resume_no_retry] promises to skip retrying failed requests. *)
Lemma resume_no_retry_with_resume_resubmits :
  let out :=
    process_requests_from_file Sample.parse_response Sample.parse_request
      Sample.dump_response Sample.create_api_specific_request (Ok tt)
      Sample.process_requests Sample.clock true None
      Sample.requests_file Sample.responses_file true true Sample.world in
  files Sample.world !! Sample.responses_file
  = Some ["done 1"; "partial 2"; "failed 0"] /\
  option_map response_row (Sample.parse_response "failed 0") = Some 0 /\
  submitted_rows (fst out) = [0; 3] /\
  ~ (forall i, In i (submitted_rows (fst out)) ->
               ~ In i (map response_row
                         [Sample.response JNull (Some ["Request timed out"]) 0])).
Proof.
  vm_compute. repeat split; try reflexivity.
  intros H. apply (H 0); left; reflexivity.
Qed.

(** X21 on the sample log: only row 3 is submitted. *)
Lemma process_requests_from_file_resume_no_retry_witness :
  exists requests,
    resume_state Sample.parse_response None Sample.responses_file false true
      Sample.world
    = (Sample.world, Ok (Some (list_to_set [1; 2; 0]))) /\
    map api_generic_request requests = [Sample.row 3] /\
    Forall (fun a => task_id a = original_row_idx (api_generic_request a))
      requests /\
    process_requests_from_file Sample.parse_response Sample.parse_request
      Sample.dump_response Sample.create_api_specific_request (Ok tt)
      Sample.process_requests Sample.clock true None
      Sample.requests_file Sample.responses_file false true Sample.world
    = match Sample.process_requests requests with
      | Ok responses =>
          ({| files := <[Sample.responses_file :=
                           ["done 1"; "partial 2"; "failed 0"]
                           ++ map Sample.dump_response responses]>
                         (files Sample.world);
              calls := calls Sample.world ++ hook_calls true requests |},
           Ok tt)
      | Raise e =>
          ({| files := files Sample.world;
              calls := calls Sample.world ++ hook_calls true requests |},
           Raise e)
      end.
Proof.
  apply (process_requests_from_file_resume_no_retry
           Sample.parse_response Sample.parse_request Sample.dump_response
           Sample.create_api_specific_request (Ok tt) Sample.process_requests
           Sample.clock true None Sample.requests_file Sample.responses_file
           Sample.world
           ["done 1"; "partial 2"; "failed 0"]
           [Sample.response (JStr "1") None 1;
            Sample.response (JStr "1") (Some ["Request timed out"]) 2;
            Sample.response JNull (Some ["Request timed out"]) 0]
           ["row 0"; "row 1"; "row 2"; "row 3"]
           [Sample.row 0; Sample.row 1; Sample.row 2; Sample.row 3]).
  - reflexivity.
  - repeat constructor.
  - reflexivity.
  - repeat constructor.
  - reflexivity.
Defined.

(** C6 on the sample log: the answer ["n"] leaves everything as it was. *)
Lemma process_requests_from_file_declined_witness :
  process_requests_from_file Sample.parse_response Sample.parse_request
    Sample.dump_response Sample.create_api_specific_request (Ok tt)
    Sample.process_requests Sample.clock false (Some "n")
    Sample.requests_file Sample.responses_file false false Sample.world
  = (Sample.world, Ok tt).
Proof.
  apply (process_requests_from_file_declined
           Sample.parse_response Sample.parse_request Sample.dump_response
           Sample.create_api_specific_request (Ok tt) Sample.process_requests
           Sample.clock false "n" Sample.requests_file Sample.responses_file
           Sample.world ["done 1"; "partial 2"; "failed 0"]).
  - reflexivity.
  - discriminate.
  - discriminate.
  - discriminate.
Defined.

(** C9 on the sample log: the answer ["Y"] keeps the three old lines and
    every row of the request file is processed. *)
Lemma process_requests_from_file_confirmed_appends_witness :
  let out :=
    process_requests_from_file Sample.parse_response Sample.parse_request
      Sample.dump_response Sample.create_api_specific_request (Ok tt)
      Sample.process_requests Sample.clock false (Some "Y")
      Sample.requests_file Sample.responses_file false false Sample.world in
  resume_state Sample.parse_response (Some "Y") Sample.responses_file false false
    Sample.world = (Sample.world, Ok (Some ∅)) /\
  (exists new,
     files (fst out) !! Sample.responses_file
     = Some (["done 1"; "partial 2"; "failed 0"] ++ new)) /\
  (forall path, path <> Sample.responses_file ->
     files (fst out) !! path = files Sample.world !! path) /\
  (forall req_lines rows,
     files Sample.world !! Sample.requests_file = Some req_lines ->
     Forall2 (fun line row => Sample.parse_request line = Some row) req_lines rows ->
     (false = false -> Ok tt = Ok tt) ->
     exists requests,
       map api_generic_request requests = rows /\
       out = match Sample.process_requests requests with
             | Ok responses =>
                 ({| files := <[Sample.responses_file :=
                                  ["done 1"; "partial 2"; "failed 0"]
                                  ++ map Sample.dump_response responses]>
                                (files Sample.world);
                     calls := calls Sample.world ++ hook_calls false requests |},
                  Ok tt)
             | Raise e =>
                 ({| files := files Sample.world;
                     calls := calls Sample.world ++ hook_calls false requests |},
                  Raise e)
             end).
Proof.
  apply (process_requests_from_file_confirmed_appends
           Sample.parse_response Sample.parse_request Sample.dump_response
           Sample.create_api_specific_request (Ok tt) Sample.process_requests
           Sample.clock false "Y" Sample.requests_file Sample.responses_file
           Sample.world ["done 1"; "partial 2"; "failed 0"]).
  - reflexivity.
  - right; left; reflexivity.
Defined.

(** * Further properties of the code *)

(** ** More on strings *)

Lemma prefix_app_l (p q s : string) :
  String.prefix (p ++ q) s = true -> String.prefix p s = true.
Proof.
  revert s; induction p as [|c p IH]; intros s.
  - now destruct s.
  - destruct s as [|c' s]; simpl; [discriminate|].
    destruct (ascii_dec c c'); [apply IH | discriminate].
Qed.

Lemma prefix_cons_inv (c : ascii) (p s : string) :
  String.prefix (String c p) s = true ->
  exists s', s = String c s' /\ String.prefix p s' = true.
Proof.
  destruct s as [|c' s]; simpl; [discriminate|].
  destruct (ascii_dec c c') as [<-|]; [eauto | discriminate].
Qed.

Lemma contains_app_l (p q s : string) :
  Py.contains (p ++ q) s = true -> Py.contains p s = true.
Proof.
  induction s as [|c s IH]; cbn [Py.contains].
  - destruct (String.prefix (p ++ q) "") eqn:E; [|discriminate].
    now rewrite (prefix_app_l _ _ _ E).
  - destruct (String.prefix (p ++ q) (String c s)) eqn:E.
    + now rewrite (prefix_app_l _ _ _ E).
    + intros H. destruct (String.prefix p (String c s)); auto.
Qed.

Lemma contains_app_l_false (p q s : string) :
  Py.contains p s = false -> Py.contains (p ++ q) s = false.
Proof.
  intros H. destruct (Py.contains (p ++ q) s) eqn:E; [|reflexivity].
  apply contains_app_l in E. congruence.
Qed.

Lemma lower_ascii_idem (c : ascii) :
  Py.lower_ascii (Py.lower_ascii c) = Py.lower_ascii c.
Proof. destruct c as [[] [] [] [] [] [] [] []]; reflexivity. Qed.

Lemma lower_idem (s : string) : Py.lower (Py.lower s) = Py.lower s.
Proof.
  induction s as [|c s IH]; simpl; [reflexivity|].
  now rewrite lower_ascii_idem, IH.
Qed.

(** ** More on [check_structured_output_support] *)

(** X1: the answer depends on the model name only up to letter case. *)
Theorem check_structured_output_support_ignores_case
    (strptime : string -> option date) (model : string) :
  check_structured_output_support strptime (Py.lower model)
  = check_structured_output_support strptime model.
Proof. unfold check_structured_output_support. now rewrite lower_idem. Qed.

(** X2: a model whose lower-cased name is none of ["gpt-4o-mini"],
    ["gpt-4o"], ["o1"] and contains neither ["gpt-4o-"] nor ["o1-"] is
    reported as lacking structured output, without any date being parsed. *)
Theorem check_structured_output_support_other_models
    (strptime : string -> option date) (model : string) :
  Py.in_list (Py.lower model) ["gpt-4o-mini"; "gpt-4o"; "o1"] = false ->
  Py.contains "gpt-4o-" (Py.lower model) = false ->
  Py.contains "o1-" (Py.lower model) = false ->
  check_structured_output_support strptime model = Ok false.
Proof.
  intros Hnames H4o Ho1.
  unfold check_structured_output_support.
  set (name := Py.lower model) in *.
  unfold Py.in_list in *. cbn [existsb] in Hnames.
  apply orb_false_iff in Hnames as [Hmini Hnames].
  rewrite Hmini.
  pose proof (contains_app_l_false "gpt-4o-" "mini-" name H4o) as Hm.
  change ("gpt-4o-" ++ "mini-")%string with "gpt-4o-mini-" in Hm.
  rewrite Hm. cbn [bind].
  unfold Py.in_list. cbn [existsb]. rewrite Hnames.
  rewrite H4o. cbn [bind]. rewrite Ho1. reflexivity.
Qed.

(** X3: for a name ["gpt-4o-<suffix>"] (not ["gpt-4o-mini"], no
    ["gpt-4o-mini-"] and no ["o1-"] in it) the suffix up to the next ["gpt-4o-"] is parsed as a date: a suffix that
    is not a date makes the function raise [ValueError] instead of
    answering, and a date is accepted exactly from 2024-08-06 on. *)
Theorem check_structured_output_support_gpt4o_dated
    (strptime : string -> option date) (d : string) :
  Py.lower d <> "mini" ->
  Py.contains "gpt-4o-mini-" (Py.lower ("gpt-4o-" ++ d)) = false ->
  Py.contains "o1-" (Py.lower ("gpt-4o-" ++ d)) = false ->
  exists suffix : string,
    Py.index (Py.split "gpt-4o-" (Py.lower ("gpt-4o-" ++ d))) 1 = Ok suffix /\
    check_structured_output_support strptime ("gpt-4o-" ++ d)
    = match strptime suffix with
      | Some date => Ok (date_ge date (Date 2024 8 6))
      | None => Raise ValueError
      end.
Proof.
  intros Hnot Hmini Ho1.
  unfold check_structured_output_support.
  rewrite lower_app in *.
  change (Py.lower "gpt-4o-") with "gpt-4o-" in *.
  set (name := ("gpt-4o-" ++ Py.lower d)%string) in *.
  assert (Heq : String.eqb name "gpt-4o-mini" = false).
  { destruct (String.eqb name "gpt-4o-mini") eqn:E; [|reflexivity].
    apply String.eqb_eq in E. exfalso; apply Hnot.
    subst name. now injection E. }
  rewrite Heq, Hmini. cbn [bind].
  assert (Hin : Py.in_list name ["gpt-4o"; "o1"] = false).
  { subst name. reflexivity. }
  rewrite Hin.
  assert (Hc : Py.contains "gpt-4o-" name = true) by apply contains_prefix.
  rewrite Hc.
  destruct (split_go_cons "gpt-4o-" 6 "" (("pt-4o-" ++ Py.lower d)%string))
    as (piece & rest & Hsplit).
  assert (Hidx : Py.index (Py.split "gpt-4o-" name) 1 = Ok piece).
  { subst name. rewrite split_prefix.
    change (String.length "pt-4o-") with 6%nat.
    rewrite Hsplit. reflexivity. }
  exists piece. split; [exact Hidx|].
  rewrite Hidx. cbn [bind]. unfold strptime_ymd.
  destruct (strptime piece) as [date|]; cbn [of_option bind]; [|reflexivity].
  unfold datetime_datetime. cbn [bind].
  destruct (date_ge date (Date 2024 8 6)); [reflexivity|].
  rewrite Ho1. reflexivity.
Qed.

(** X4: likewise for a name ["o1-<suffix>"] without ["gpt-4o-"] in it: a
    suffix that is not a date (["o1-mini"], ["o1-preview"]) raises
    [ValueError], a date is accepted exactly from 2024-12-17 on. *)
Theorem check_structured_output_support_o1_dated
    (strptime : string -> option date) (d : string) :
  Py.contains "gpt-4o-" (Py.lower ("o1-" ++ d)) = false ->
  exists suffix : string,
    Py.index (Py.split "o1-" (Py.lower ("o1-" ++ d))) 1 = Ok suffix /\
    check_structured_output_support strptime ("o1-" ++ d)
    = match strptime suffix with
      | Some date => Ok (date_ge date (Date 2024 12 17))
      | None => Raise ValueError
      end.
Proof.
  intros H4o.
  unfold check_structured_output_support.
  rewrite lower_app in *.
  change (Py.lower "o1-") with "o1-" in *.
  set (name := ("o1-" ++ Py.lower d)%string) in *.
  assert (Heq : String.eqb name "gpt-4o-mini" = false) by (subst name; reflexivity).
  rewrite Heq.
  pose proof (contains_app_l_false "gpt-4o-" "mini-" name H4o) as Hm.
  change ("gpt-4o-" ++ "mini-")%string with "gpt-4o-mini-" in Hm.
  rewrite Hm. cbn [bind].
  assert (Hin : Py.in_list name ["gpt-4o"; "o1"] = false).
  { subst name. reflexivity. }
  rewrite Hin, H4o. cbn [bind].
  assert (Hc : Py.contains "o1-" name = true) by apply contains_prefix.
  rewrite Hc.
  destruct (split_go_cons "o1-" 2 "" (("1-" ++ Py.lower d)%string))
    as (piece & rest & Hsplit).
  assert (Hidx : Py.index (Py.split "o1-" name) 1 = Ok piece).
  { subst name. rewrite split_prefix.
    change (String.length "1-") with 2%nat.
    rewrite Hsplit. reflexivity. }
  exists piece. split; [exact Hidx|].
  rewrite Hidx. cbn [bind]. unfold strptime_ymd.
  destruct (strptime piece) as [date|]; cbn [of_option bind]; [|reflexivity].
  unfold datetime_datetime. cbn [bind].
  destruct (date_ge date (Date 2024 12 17)); reflexivity.
Qed.

(** ** [file_utilities] *)

Lemma take_bytes_spec (k : N) (l : list byte) :
  l = fst (take_bytes k l) ++ snd (take_bytes k l) /\
  (N.of_nat (List.length (fst (take_bytes k l))) <= k)%N /\
  ((0 < k)%N -> l <> [] -> fst (take_bytes k l) <> []).
Proof.
  revert k; induction l as [|b l IH]; intros k; cbn [take_bytes].
  - cbn. repeat split; [lia | congruence].
  - destruct (N.eqb_spec k 0) as [->|Hk]; cbn [fst snd].
    + cbn. repeat split; lia.
    + specialize (IH (N.pred k)).
      destruct (take_bytes (N.pred k) l) as [chunk rest]; cbn [fst snd] in *.
      destruct IH as (Heq & Hlen & _).
      repeat split; [cbn; congruence | cbn [List.length]; lia | discriminate].
Qed.

Lemma count_newlines_app (a b : list byte) :
  count_newlines (a ++ b) = count_newlines a + count_newlines b.
Proof. induction a as [|x a IH]; cbn [app count_newlines]; lia. Qed.

Lemma count_newlines_concat (chunks : list (list byte)) :
  foldr Z.add 0 (map count_newlines chunks) = count_newlines (concat chunks).
Proof.
  induction chunks as [|c chunks IH]; cbn [map foldr concat]; [reflexivity|].
  rewrite count_newlines_app. lia.
Qed.

Lemma count_newlines_none (l : list byte) :
  x0a ∉ l -> count_newlines l = 0.
Proof.
  induction l as [|b l IH]; intros Hnot; cbn [count_newlines]; [reflexivity|].
  rewrite IH by (intros H; apply Hnot; now apply list_elem_of_further).
  destruct (Byte.eqb b x0a) eqn:E; [|reflexivity].
  apply Byte.byte_dec_bl in E. subst b.
  exfalso; apply Hnot. apply list_elem_of_here.
Qed.

Lemma count_newlines_lines (lines : list (list byte)) :
  Forall (fun line => x0a ∉ line) lines ->
  count_newlines (lines_bytes lines) = Z.of_nat (List.length lines).
Proof.
  unfold lines_bytes.
  induction 1 as [|line lines Hline _ IH]; [reflexivity|].
  cbn [map concat List.length]. rewrite !count_newlines_app, IH.
  rewrite (count_newlines_none line Hline). cbn. lia.
Qed.

Lemma file_gen_concat (short : list byte -> N) (fuel : nat) (content : list byte) :
  (List.length content < fuel)%nat ->
  exists chunks,
    _file_gen short fuel content = Some chunks /\ concat chunks = content.
Proof.
  revert content; induction fuel as [|fuel IH]; intros content Hfuel; [lia|].
  cbn [_file_gen]. unfold raw_read.
  set (k := N.max 1 (N.min (1024 * 1024) (short content))).
  destruct (take_bytes_spec k content) as (Heq & _ & Hne).
  destruct (take_bytes k content) as [[|x b] rest]; cbn [fst snd] in *.
  - exists []. split; [reflexivity|].
    destruct content as [|y content]; [reflexivity|].
    exfalso. apply Hne; [lia | discriminate | reflexivity].
  - destruct (IH rest) as (chunks & -> & Hcat).
    { rewrite Heq, length_app in Hfuel. cbn [List.length] in Hfuel. lia. }
    exists ((x :: b) :: chunks). split; [reflexivity|].
    cbn [concat]. now rewrite Hcat.
Qed.

(** X5: whatever the sizes of the reads, [_file_gen] ends when the file is
    exhausted, and the chunks it yields are non-empty, at most 1 MiB long
    and make up the file when put end to end. *)
Theorem file_gen_chunks (short : list byte -> N) (fuel : nat) (content : list byte) :
  (List.length content < fuel)%nat ->
  exists chunks,
    _file_gen short fuel content = Some chunks /\
    concat chunks = content /\
    Forall (fun chunk => chunk <> [] /\
                         (N.of_nat (List.length chunk) <= 1024 * 1024)%N) chunks.
Proof.
  revert content; induction fuel as [|fuel IH]; intros content Hfuel; [lia|].
  cbn [_file_gen]. unfold raw_read.
  set (k := N.max 1 (N.min (1024 * 1024) (short content))).
  destruct (take_bytes_spec k content) as (Heq & Hlen & Hne).
  destruct (take_bytes k content) as [b rest]; cbn [fst snd] in *.
  destruct b as [|x b].
  - exists []. repeat split; [|constructor].
    destruct content as [|y content]; [reflexivity|].
    exfalso. apply Hne; [lia | discriminate | reflexivity].
  - destruct (IH rest) as (chunks & -> & Hcat & Hall).
    { subst content. rewrite length_app in Hfuel. cbn [List.length] in Hfuel. lia. }
    exists ((x :: b) :: chunks). repeat split.
    + cbn [concat]. now rewrite Hcat.
    + constructor; [|exact Hall]. split; [discriminate|]. lia.
Qed.

(** X6: [count_lines] returns the number of newline bytes of the file, the
    same for every way the reads cut it into chunks; a missing file raises
    [FileNotFoundError]. *)
Theorem count_lines_counts_newlines
    (short : list byte -> N) (fuel : nat) (files : gmap string (list byte))
    (filename : string) :
  (List.length (default [] (files !! filename)) < fuel)%nat ->
  count_lines short fuel files filename
  = Some (match files !! filename with
          | Some content => Ok (count_newlines content)
          | None => Raise FileNotFoundError
          end).
Proof.
  intros Hfuel. unfold count_lines.
  destruct (files !! filename) as [content|]; [|reflexivity].
  cbn [default] in Hfuel.
  destruct (file_gen_concat short fuel content Hfuel) as (chunks & -> & Hcat).
  now rewrite count_newlines_concat, Hcat.
Qed.

(** X7: on a file of newline-terminated lines followed by text without a
    newline, [count_lines] is the number of lines: an unterminated last line
    is not counted. *)
Theorem count_lines_terminated_lines
    (short : list byte -> N) (fuel : nat) (files : gmap string (list byte))
    (filename : string) (lines : list (list byte)) (tail : list byte) :
  files !! filename = Some (lines_bytes lines ++ tail) ->
  Forall (fun line => x0a ∉ line) lines ->
  x0a ∉ tail ->
  (List.length (lines_bytes lines ++ tail) < fuel)%nat ->
  count_lines short fuel files filename = Some (Ok (Z.of_nat (List.length lines))).
Proof.
  intros Hfile Hlines Htail Hfuel. unfold count_lines. rewrite Hfile.
  destruct (file_gen_concat short fuel _ Hfuel) as (chunks & -> & Hcat).
  rewrite count_newlines_concat, Hcat, count_newlines_app.
  rewrite (count_newlines_lines lines Hlines), (count_newlines_none tail Htail).
  f_equal. f_equal. lia.
Qed.

(** ** [requests_to_responses]: the name of the response file *)

Lemma replace_go_length (old new : string) :
  (0 < String.length old <= String.length new)%nat ->
  forall (s : string) (skip : nat),
    (String.length s
     <= String.length (Py.replace_go old new skip s)
        + Nat.min skip (String.length s))%nat.
Proof.
  intros Hlen. induction s as [|c s IH]; intros skip; [cbn; lia|].
  cbn [Py.replace_go]. destruct skip as [|k].
  - destruct (String.prefix old (String c s)).
    + rewrite string_length_app.
      specialize (IH (Nat.pred (String.length old))). cbn [String.length]. lia.
    + specialize (IH 0%nat). cbn [String.length]. lia.
  - specialize (IH k). cbn [String.length]. lia.
Qed.

Lemma replace_grows (old new s : string) :
  (0 < String.length old < String.length new)%nat ->
  Py.contains old s = true ->
  (String.length s < String.length (Py.replace old new s))%nat.
Proof.
  intros Hlen. unfold Py.replace.
  induction s as [|c s IH]; cbn [Py.contains Py.replace_go].
  - destruct old; [cbn in Hlen; lia | cbn; discriminate].
  - destruct (String.prefix old (String c s)).
    + intros _. rewrite string_length_app.
      pose proof (replace_go_length old new ltac:(lia) s
                    (Nat.pred (String.length old))).
      cbn [String.length]. lia.
    + intros H. specialize (IH H). cbn [String.length]. lia.
Qed.

Lemma replace_absent (old new s : string) :
  Py.contains old s = false -> Py.replace old new s = s.
Proof.
  unfold Py.replace. induction s as [|c s IH]; cbn [Py.contains Py.replace_go].
  - reflexivity.
  - destruct (String.prefix old (String c s)); [discriminate|].
    intros H. now rewrite IH.
Qed.

(** X17: the response file of a request file is the request file itself
    exactly when its name has no ["requests_"] in it; [requests_to_responses]
    then uses the request file as its own response log. *)
Theorem response_file_of_same_iff (request_file : string) :
  response_file_of request_file = request_file
  <-> Py.contains "requests_" request_file = false.
Proof.
  unfold response_file_of. split.
  - intros Heq. destruct (Py.contains "requests_" request_file) eqn:E;
      [|reflexivity].
    pose proof (replace_grows "requests_" "responses_" request_file
                  ltac:(cbn; lia) E) as Hlt.
    rewrite Heq in Hlt. lia.
  - apply replace_absent.
Qed.

(** ** Set-up of the online processor *)

Lemma get_token_encoding_cl100k {Encoding : Type}
    (tiktoken_get_encoding : string -> result Encoding) (model : string) :
  get_token_encoding tiktoken_get_encoding model
  = tiktoken_get_encoding "cl100k_base".
Proof.
  unfold get_token_encoding.
  destruct (String.prefix "gpt-4" model); [reflexivity|].
  destruct (String.prefix "gpt-3.5" model); reflexivity.
Qed.

(** X18: without an API key in the environment (unset or empty) the probe
    raises [ValueError] before posting, so the constructor never returns a
    processor and never posts a request: it raises the exception of the base
    constructor if that fails, else the one of the look-up of the
    ["cl100k_base"] encoding if that fails, else [ValueError]. *)
Theorem init_without_api_key {Encoding : Type}
    (py_int : string -> option Z)
    (requests_post : http_post -> result (string -> option string))
    (tiktoken_get_encoding : string -> result Encoding)
    (super_init : result unit)
    (model : string) (base_url env_key : option string)
    (posted : list http_post) :
  api_key_missing env_key = true ->
  let out :=
    init py_int requests_post tiktoken_get_encoding super_init model base_url
      env_key posted in
  get_header_based_rate_limits py_int requests_post (init_url base_url) model
    env_key posted
  = (posted, Raise ValueError) /\
  out = (posted,
         _ <- super_init ;;
         _ <- tiktoken_get_encoding "cl100k_base" ;;
         Raise ValueError) /\
  (forall processor, snd out <> Ok processor).
Proof.
  intros Hkey out.
  assert (Hprobe : get_header_based_rate_limits py_int requests_post
                     (init_url base_url) model env_key posted
                   = (posted, Raise ValueError)).
  { unfold get_header_based_rate_limits, lift. now rewrite Hkey. }
  assert (Hout : out = (posted,
                        _ <- super_init ;;
                        _ <- tiktoken_get_encoding "cl100k_base" ;;
                        Raise ValueError)).
  { subst out. unfold init, mbind, lift.
    rewrite get_token_encoding_cl100k.
    destruct super_init as [[]|e]; cbn [bind]; [|reflexivity].
    destruct (tiktoken_get_encoding "cl100k_base") as [encoding|e];
      cbn [bind]; [|reflexivity].
    now rewrite Hprobe. }
  split; [exact Hprobe|]. split; [exact Hout|].
  intros processor. rewrite Hout. cbn [snd].
  destruct super_init as [[]|e]; cbn [bind]; [|discriminate].
  destruct (tiktoken_get_encoding "cl100k_base"); discriminate.
Qed.

Lemma get_header_based_rate_limits_posts
    (py_int : string -> option Z)
    (requests_post : http_post -> result (string -> option string))
    (url model key : string) (posted : list http_post) :
  key <> "" ->
  fst (get_header_based_rate_limits py_int requests_post url model (Some key)
         posted)
  = posted ++ [{| post_url := url;
                  post_headers := [("Authorization", ("Bearer " ++ key)%string)];
                  post_json := JObj [("model", JStr model); ("messages", JArr [])] |}].
Proof.
  intros Hkey.
  unfold get_header_based_rate_limits, api_key_missing.
  apply String.eqb_neq in Hkey. rewrite Hkey.
  unfold mbind, modify, lift, ret. cbn [format_api_key fst snd].
  match goal with |- context [requests_post ?p] => destruct (requests_post p) as [headers|e] end;
    [|reflexivity].
  destruct (header_limit py_int headers "x-ratelimit-limit-requests");
    [|reflexivity].
  destruct (header_limit py_int headers "x-ratelimit-limit-tokens");
    reflexivity.
Qed.

(** X19: with a key, the probe posts exactly one request, to the
    processor's URL, with a bearer token and an empty list of messages; a
    response that carries neither rate-limit header gives the limits 0
    and 0. *)
Theorem get_header_based_rate_limits_probe
    (py_int : string -> option Z)
    (requests_post : http_post -> result (string -> option string))
    (url model key : string) (posted : list http_post) :
  key <> "" ->
  let post :=
    {| post_url := url;
       post_headers := [("Authorization", ("Bearer " ++ key)%string)];
       post_json := JObj [("model", JStr model); ("messages", JArr [])] |} in
  let out :=
    get_header_based_rate_limits py_int requests_post url model (Some key)
      posted in
  fst out = posted ++ [post] /\
  (forall headers,
     requests_post post = Ok headers ->
     headers "x-ratelimit-limit-requests" = None ->
     headers "x-ratelimit-limit-tokens" = None ->
     snd out = Ok (0, 0)).
Proof.
  intros Hkey post out. subst out. split.
  - now apply get_header_based_rate_limits_posts.
  - unfold get_header_based_rate_limits, api_key_missing.
    apply String.eqb_neq in Hkey. rewrite Hkey.
    unfold mbind, modify, lift, ret. cbn [format_api_key fst snd]. fold post.
    intros headers -> Hrpm Htpm. unfold header_limit. now rewrite Hrpm, Htpm.
Qed.

(** X20: for an Azure deployment URL the two requests authenticate
    differently: [call_single_request] sends the key in an [api-key]
    header, the rate-limit probe sends it as a bearer token. *)
Theorem azure_probe_header_differs
    (py_int : string -> option Z)
    (requests_post : http_post -> result (string -> option string))
    (url model key : string) (body : json) :
  Py.contains "/deployments" url = true ->
  key <> "" ->
  post_headers (call_single_request_post url (Some key) body)
  = [("api-key", key)] /\
  map post_headers
    (fst (get_header_based_rate_limits py_int requests_post url model
            (Some key) []))
  = [[("Authorization", ("Bearer " ++ key)%string)]].
Proof.
  intros Hurl Hkey. split.
  - unfold call_single_request_post. now rewrite Hurl.
  - now rewrite (get_header_based_rate_limits_posts py_int requests_post url
                    model key [] Hkey).
Qed.

(** ** Runs of the further properties on the sample data *)

(** X2 at a model of another family. *)
Lemma check_structured_output_support_other_models_witness :
  check_structured_output_support Sample.strptime "gpt-3.5-turbo" = Ok false.
Proof. apply check_structured_output_support_other_models; reflexivity. Defined.

(** X3 at two names: a preview model, whose suffix is no date, and the
    first dated release with structured output. *)
Lemma check_structured_output_support_gpt4o_dated_witness :
  (exists suffix : string,
     Py.index (Py.split "gpt-4o-" (Py.lower ("gpt-4o-" ++ "audio-preview"))) 1
     = Ok suffix /\
     check_structured_output_support Sample.strptime ("gpt-4o-" ++ "audio-preview")
     = match Sample.strptime suffix with
       | Some date => Ok (date_ge date (Date 2024 8 6))
       | None => Raise ValueError
       end) /\
  check_structured_output_support Sample.strptime "gpt-4o-audio-preview"
  = Raise ValueError.
Proof.
  split; [|reflexivity].
  apply check_structured_output_support_gpt4o_dated;
    [discriminate | reflexivity | reflexivity].
Defined.

(** X4 at ["o1-preview"]. *)
Lemma check_structured_output_support_o1_dated_witness :
  (exists suffix : string,
     Py.index (Py.split "o1-" (Py.lower ("o1-" ++ "preview"))) 1 = Ok suffix /\
     check_structured_output_support Sample.strptime ("o1-" ++ "preview")
     = match Sample.strptime suffix with
       | Some date => Ok (date_ge date (Date 2024 12 17))
       | None => Raise ValueError
       end) /\
  check_structured_output_support Sample.strptime "o1-preview" = Raise ValueError.
Proof.
  split; [|reflexivity].
  apply check_structured_output_support_o1_dated; reflexivity.
Defined.

(** X5 on a file of seven bytes read three at a time. *)
Lemma file_gen_chunks_witness :
  exists chunks,
    _file_gen Sample.short 8 [x61; x0a; x62; x63; x0a; x64; x65] = Some chunks /\
    concat chunks = [x61; x0a; x62; x63; x0a; x64; x65] /\
    Forall (fun chunk => chunk <> [] /\
                         (N.of_nat (List.length chunk) <= 1024 * 1024)%N) chunks.
Proof. apply file_gen_chunks. apply Nat.ltb_lt. reflexivity. Defined.

(** X6 on the sample binary file. *)
Lemma count_lines_counts_newlines_witness :
  count_lines Sample.short 20 Sample.binary_files "requests_0.jsonl"
  = Some (match Sample.binary_files !! "requests_0.jsonl" with
          | Some content => Ok (count_newlines content)
          | None => Raise FileNotFoundError
          end) /\
  count_lines Sample.short 20 Sample.binary_files "requests_0.jsonl" = Some (Ok 2).
Proof.
  split; [|reflexivity].
  apply count_lines_counts_newlines. apply Nat.ltb_lt. reflexivity.
Defined.

(** X7 on the sample binary file: two closed lines and an open one. *)
Lemma count_lines_terminated_lines_witness :
  count_lines Sample.short 20 Sample.binary_files "requests_0.jsonl"
  = Some (Ok (Z.of_nat (List.length Sample.two_lines))).
Proof.
  apply (count_lines_terminated_lines Sample.short 20 Sample.binary_files
           "requests_0.jsonl" Sample.two_lines [x66; x67]).
  - reflexivity.
  - repeat constructor; intros H;
      repeat (apply elem_of_cons in H as [H|H]; [discriminate|]);
      inversion H.
  - intros H; repeat (apply elem_of_cons in H as [H|H]; [discriminate|]);
      inversion H.
  - apply Nat.ltb_lt. reflexivity.
Defined.

(** X8 at a reply [{}] with status 500. *)
Lemma call_single_request_status_error_witness :
  call_single_request Sample.int_field Sample.completion_cost
    Sample.GenericResponse_valid Sample.api_request
    (Ok (500, Sample.empty_body)) 5 6 Sample.tracker
  = (Sample.tracker, Raise (StatusError 500 Sample.empty_body)).
Proof.
  apply call_single_request_status_error; [reflexivity | discriminate].
Defined.

(** X9 at a reply whose error is the plain text of a rate-limit message. *)
Lemma call_single_request_malformed_error_witness :
  call_single_request Sample.int_field Sample.completion_cost
    Sample.GenericResponse_valid Sample.api_request
    (Ok (429, JObj [("error", JStr "Rate limit reached")])) 5 6 Sample.tracker
  = (add_api_errors 1 Sample.tracker, Raise AttributeError).
Proof.
  apply (call_single_request_malformed_error Sample.int_field
           Sample.completion_cost Sample.GenericResponse_valid
           Sample.api_request 429 [("error", JStr "Rate limit reached")]
           (JStr "Rate limit reached") 5 6 Sample.tracker);
    [reflexivity | discriminate].
Defined.

(** X11 on the sample log: rows 0 and 3 are submitted. *)
Lemma process_requests_from_file_resume_retry_witness :
  exists requests,
    map api_generic_request requests = [Sample.row 0; Sample.row 3] /\
    snd (process_requests_from_file Sample.parse_response Sample.parse_request
           Sample.dump_response Sample.create_api_specific_request (Ok tt)
           Sample.process_requests Sample.clock true None
           Sample.requests_file Sample.responses_file true false Sample.world)
    = match Sample.process_requests requests with
      | Ok _ => Ok tt
      | Raise e => Raise e
      end.
Proof.
  destruct (process_requests_from_file_resume_retry
              Sample.parse_response Sample.parse_request Sample.dump_response
              Sample.create_api_specific_request (Ok tt) Sample.process_requests
              Sample.clock true None false
              Sample.requests_file Sample.responses_file Sample.world
              ["done 1"; "partial 2"; "failed 0"]
              [Sample.response (JStr "1") None 1;
               Sample.response (JStr "1") (Some ["Request timed out"]) 2;
               Sample.response JNull (Some ["Request timed out"]) 0]
              ["row 0"; "row 1"; "row 2"; "row 3"]
              [Sample.row 0; Sample.row 1; Sample.row 2; Sample.row 3]
              eq_refl
              ltac:(repeat constructor)
              ltac:(discriminate)
              ltac:(discriminate)
              eq_refl
              ltac:(repeat constructor)
              ltac:(reflexivity))
    as (requests & Hmap & _ & Hrun).
  exists requests. split; [exact Hmap|].
  rewrite Hrun. destruct (Sample.process_requests requests); reflexivity.
Defined.

(** X12 on a log whose third line is cut short. *)
Lemma process_requests_from_file_corrupt_log_witness :
  snd (process_requests_from_file Sample.parse_response Sample.parse_request
         Sample.dump_response Sample.create_api_specific_request (Ok tt)
         Sample.process_requests Sample.clock true None
         Sample.requests_file Sample.responses_file true false
         Sample.corrupt_world)
  = Raise ValidationError /\
  process_requests_from_file Sample.parse_response Sample.parse_request
    Sample.dump_response Sample.create_api_specific_request (Ok tt)
    Sample.process_requests Sample.clock true None
    Sample.requests_file Sample.responses_file false true Sample.corrupt_world
  = (Sample.corrupt_world, Raise ValidationError).
Proof.
  destruct (process_requests_from_file_corrupt_log
              Sample.parse_response Sample.parse_request Sample.dump_response
              Sample.create_api_specific_request (Ok tt) Sample.process_requests
              Sample.clock true None false
              Sample.requests_file Sample.responses_file Sample.corrupt_world
              ["done 1"; "failed 0"]
              [Sample.response (JStr "1") None 1;
               Sample.response JNull (Some ["Request timed out"]) 0]
              "{" ["done 2"]
              eq_refl ltac:(repeat constructor) eq_refl)
    as (Hretry & _ & Hno_retry).
  split; [now rewrite Hretry | exact Hno_retry].
Defined.

(** X13 on a world that has only the request file. *)
Lemma process_requests_from_file_fresh_witness :
  exists requests,
    map api_generic_request requests = [Sample.row 0; Sample.row 1] /\
    process_requests_from_file Sample.parse_response Sample.parse_request
      Sample.dump_response Sample.create_api_specific_request (Ok tt)
      Sample.process_requests Sample.clock false None
      Sample.requests_file Sample.responses_file false false Sample.fresh_world
    = match Sample.process_requests requests with
      | Ok responses =>
          ({| files := <[Sample.responses_file :=
                           map Sample.dump_response responses]>
                         (files Sample.fresh_world);
              calls := calls Sample.fresh_world ++ hook_calls false requests |},
           Ok tt)
      | Raise e =>
          ({| files := files Sample.fresh_world;
              calls := calls Sample.fresh_world ++ hook_calls false requests |},
           Raise e)
      end.
Proof.
  apply (process_requests_from_file_fresh
           Sample.parse_response Sample.parse_request Sample.dump_response
           Sample.create_api_specific_request (Ok tt) Sample.process_requests
           Sample.clock false None false false
           Sample.requests_file Sample.responses_file Sample.fresh_world
           ["row 0"; "row 1"] [Sample.row 0; Sample.row 1]).
  - reflexivity.
  - reflexivity.
  - repeat constructor.
  - reflexivity.
Defined.

(** X14 on the empty world. *)
Lemma process_requests_from_file_missing_requests_witness :
  process_requests_from_file Sample.parse_response Sample.parse_request
    Sample.dump_response Sample.create_api_specific_request (Ok tt)
    Sample.process_requests Sample.clock false None
    Sample.requests_file Sample.responses_file true false Sample.empty_world
  = ({| files := files Sample.empty_world;
        calls := calls Sample.empty_world ++ [LoadOfflineModel] |},
     Raise FileNotFoundError).
Proof.
  apply (process_requests_from_file_missing_requests
           Sample.parse_response Sample.parse_request Sample.dump_response
           Sample.create_api_specific_request (Ok tt) Sample.process_requests
           Sample.clock false None true false
           Sample.requests_file Sample.responses_file Sample.empty_world);
    reflexivity.
Defined.

(** X15 on three lines, the row of the second being completed. *)
Lemma build_requests_in_order_witness :
  build_requests Sample.parse_request Sample.create_api_specific_request
    Sample.clock ["row 2"; "row 1"; "row 2"] {[ 1 ]} []
  = Ok (imap (api_request_of Sample.create_api_specific_request Sample.clock)
          (filter (fun row => original_row_idx row ∉ ({[ 1 ]} : gset Z))
             [Sample.row 2; Sample.row 1; Sample.row 2])).
Proof.
  apply build_requests_in_order. repeat constructor.
Defined.

(** X17 at a request file named without ["requests_"]. *)
Lemma response_file_of_same_iff_witness :
  response_file_of "data/prompts.jsonl" = "data/prompts.jsonl" /\
  response_file_of "data/requests_0.jsonl" = "data/responses_0.jsonl".
Proof.
  split; [|reflexivity].
  apply (proj2 (response_file_of_same_iff "data/prompts.jsonl")). reflexivity.
Defined.

(** X18 with [OPENAI_API_KEY] unset. *)
Lemma init_without_api_key_witness :
  init Sample.py_int Sample.requests_post Sample.tiktoken_get_encoding
    Sample.super_init "gpt-4o-mini" None None []
  = ([], Raise ValueError).
Proof.
  destruct (init_without_api_key Sample.py_int Sample.requests_post
              Sample.tiktoken_get_encoding Sample.super_init "gpt-4o-mini"
              None None [] eq_refl) as (_ & Hout & _).
  exact Hout.
Defined.

(** X19 with a key: the sample service answers with both headers, a
    service without them gives zero limits. *)
Lemma get_header_based_rate_limits_probe_witness :
  let post :=
    {| post_url := init_url None;
       post_headers := [("Authorization", "Bearer sk-test")];
       post_json := JObj [("model", JStr "gpt-4o-mini"); ("messages", JArr [])] |} in
  let out :=
    get_header_based_rate_limits Sample.py_int (fun _ => Ok (fun _ => None))
      (init_url None) "gpt-4o-mini" (Some "sk-test") [] in
  fst out = [post] /\ snd out = Ok (0, 0).
Proof.
  intros post out.
  destruct (get_header_based_rate_limits_probe Sample.py_int
              (fun _ => Ok (fun _ => None)) (init_url None) "gpt-4o-mini"
              "sk-test" [] ltac:(discriminate)) as [Hposted Hzero].
  split; [exact Hposted|].
  exact (Hzero (fun _ => None) eq_refl eq_refl eq_refl).
Defined.

(** X20 at an Azure deployment. *)
Lemma azure_probe_header_differs_witness :
  let url := init_url (Some "https://example.openai.azure.com/openai/deployments/gpt-4o") in
  post_headers (call_single_request_post url (Some "key") JNull)
  = [("api-key", "key")] /\
  map post_headers
    (fst (get_header_based_rate_limits Sample.py_int Sample.requests_post url
            "gpt-4o" (Some "key") []))
  = [[("Authorization", "Bearer key")]].
Proof.
  apply azure_probe_header_differs; [reflexivity | discriminate].
Defined.

Example sample_probe :
  snd (init Sample.py_int Sample.requests_post Sample.tiktoken_get_encoding
         Sample.super_init "gpt-4o-mini" None (Some "sk-test") [])
  = Ok {| url := "https://api.openai.com/v1/chat/completions";
          api_key := Some "sk-test";
          token_encoding := "cl100k_base";
          header_based_max_requests_per_minute := 500;
          header_based_max_tokens_per_minute := 30000 |}.
Proof. reflexivity. Qed.
